(** * imgui_sugar: RAII scope guards and the with_/set_ DSL

A shallow embedding of [imgui_sugar.hpp] (namespace [sugar]) and of the
C++11 variant of the same header (namespace [ImGuiSugar]).

The guards are tiny; what they promise lives in the C++ rules for object
lifetime.  The first part of this file therefore fixes those rules as a
small monad of statements: a statement takes the log of library calls
made so far and yields a completion together with the extended log.
Destructors run through [scope_exit], declarations through [decl_in],
and the condition declaration of an [if] through [if_]. *)

From Stdlib Require Import List String ZArith Bool Lia.
From Stdlib Require Import DecimalString DecimalNat.
Import ListNotations.
Open Scope string_scope.
Open Scope list_scope.

Set Implicit Arguments.

(* ------------------------------------------------------------------------ *)
(** ** Values, calls and the call log                                        *)
(* ------------------------------------------------------------------------ *)

(** Run-time values handed to the collaborating library. *)
Inductive Value : Type :=
  | VBool  (b : bool)
  | VInt   (z : Z)
  | VU32   (z : Z)
  | VFloat (mantissa : Z) (exponent : Z)
  | VStr   (s : string)
  | VVec2  (x y : Z)
  | VVec4  (x y z w : Z)
  | VPtr   (address : Z).

(** One call into the [ImGui] namespace: the function name and the argument
    values it received. *)
Record Call : Type := mkCall { fn : string; args : list Value }.

(** The observable state is the log of calls made so far, oldest first. *)
Definition World : Type := list Call.

(** Number of calls to [f] recorded in a log. *)
Fixpoint count_calls (f : string) (w : World) : nat :=
  match w with
  | [] => 0
  | c :: rest => (if String.eqb (fn c) f then 1 else 0) + count_calls f rest
  end.

(* ------------------------------------------------------------------------ *)
(** ** Completions and the statement monad                                   *)
(* ------------------------------------------------------------------------ *)

(** How a C++ statement or call completes.  [Throw] is an exception on its
    way to an enclosing handler, so that the stack is unwound; [Return_],
    [Break_] and [Continue_] are the jump statements leaving a block;
    [Terminate] is a call of [std::terminate], after which nothing runs. *)
Inductive outcome (A : Type) : Type :=
  | Normal (a : A)
  | Throw (e : string)
  | Return_
  | Break_
  | Continue_
  | Terminate.

Arguments Normal {A} a.
Arguments Throw {A} e.
Arguments Return_ {A}.
Arguments Break_ {A}.
Arguments Continue_ {A}.
Arguments Terminate {A}.

Definition M (A : Type) : Type := World -> outcome A * World.

Definition ret {A} (a : A) : M A := fun w => (Normal a, w).

Definition bind {A B} (m : M A) (k : A -> M B) : M B :=
  fun w =>
    match m w with
    | (Normal a, w1)  => k a w1
    | (Throw e, w1)   => (Throw e, w1)
    | (Return_, w1)   => (Return_, w1)
    | (Break_, w1)    => (Break_, w1)
    | (Continue_, w1) => (Continue_, w1)
    | (Terminate, w1) => (Terminate, w1)
    end.

Declare Scope stmt_scope.
Delimit Scope stmt_scope with stmt.
Notation "x <- m ;; k" := (bind m (fun x => k))
  (at level 100, m at next level, right associativity) : stmt_scope.
Notation "m ;; k" := (bind m (fun _ => k))
  (at level 100, right associativity) : stmt_scope.
Open Scope stmt_scope.

(** The jump statements and [throw]. *)
Definition throw_ (e : string) : M unit := fun w => (Throw e, w).
Definition return_ : M unit := fun w => (Return_, w).
Definition break_ : M unit := fun w => (Break_, w).
Definition continue_ : M unit := fun w => (Continue_, w).

(** A function declared [noexcept]: an exception that would leave it calls
    [std::terminate] instead. *)
Definition noexcept_ {A} (m : M A) : M A :=
  fun w =>
    match m w with
    | (Throw _, w1) => (Terminate, w1)
    | other => other
    end.

(** Leaving a scope that owns one object: whatever way the scope's code [m]
    completed, the destructor [d] runs next, and the completion of [m] is what
    the scope completes with.  After [std::terminate] nothing runs.  A
    destructor is [noexcept] unless declared otherwise, so one that does not
    complete normally ends the program. *)
Definition scope_exit {A} (m : M A) (d : M unit) : M A :=
  fun w =>
    match m w with
    | (Terminate, w1) => (Terminate, w1)
    | (r, w1) =>
        match d w1 with
        | (Normal _, w2) => (r, w2)
        | (_, w2) => (Terminate, w2)
        end
    end.

(** A declaration [const G g = init;] followed by the rest [k] of its scope.
    When the initialiser does not complete, no object exists and no
    destructor runs. *)
Definition decl_in {G A} (init : M G) (dtor : G -> M unit) (k : G -> M A) : M A :=
  g <- init ;; scope_exit (k g) (dtor g).

(** What a declaration of a guarded object consists of: the type, the
    initialiser, the destructor, and the contextual conversion to [bool]
    that applies when the declaration is the condition of an [if]. *)
Record declaration : Type := mkDecl {
  decl_type : Type;
  decl_init : M decl_type;
  decl_dtor : decl_type -> M unit;
  decl_bool : decl_type -> bool
}.

(** [if (const G g = init) body]: the declared object lives for the whole
    [if] statement, the body runs when the object converts to [true]. *)
Definition if_ (d : declaration) (body : M unit) : M unit :=
  decl_in (decl_init d) (decl_dtor d)
          (fun g => if decl_bool d g then body else ret tt).

(** A block is a sequence of items: plain statements, and declarations of
    objects that the block owns from the declaration to its closing brace. *)
Inductive item : Type :=
  | Stmt (s : M unit)
  | Decl (d : declaration).

Fixpoint run_block (b : list item) : M unit :=
  match b with
  | [] => ret tt
  | Stmt s :: rest => s ;; run_block rest
  | Decl d :: rest =>
      decl_in (decl_init d) (decl_dtor d) (fun _ => run_block rest)
  end.

(* ------------------------------------------------------------------------ *)
(** ** The collaborating library                                             *)
(* ------------------------------------------------------------------------ *)

(** What a library function answers: a boolean (ignored for [void]
    functions) or an exception. *)
Inductive Reply : Type :=
  | Ok (b : bool)
  | Raise (e : string).

(** The library is opaque: its answer to a call is some function of the
    function called, the arguments and the calls made so far. *)
Definition Library : Type := string -> list Value -> World -> Reply.

Module ImGui.

(** A [Begin*] function returning [bool]. *)
Definition call_bool (lib : Library) (f : string) (a : list Value) : M bool :=
  fun w =>
    match lib f a w with
    | Ok b => (Normal b, w ++ [mkCall f a])
    | Raise e => (Throw e, w ++ [mkCall f a])
    end.

(** A [Begin*] or [Push*] function returning [void]. *)
Definition call_void (lib : Library) (f : string) (a : list Value) : M unit :=
  fun w =>
    match lib f a w with
    | Ok _ => (Normal tt, w ++ [mkCall f a])
    | Raise e => (Throw e, w ++ [mkCall f a])
    end.

(** An [End*] or [Pop*] function: by the library's contract these return
    nothing and do not fail. *)
Definition call_end (f : string) (a : list Value) : M unit :=
  fun w => (Normal tt, w ++ [mkCall f a]).

(** The style stacks of the library, read off the log: [PushStyleColor]
    and [PushStyleVar] push one entry (their arguments), [PopStyleColor]
    and [PopStyleVar] pop [count] entries, [count] defaulting to 1. *)
Definition pop_count (a : list Value) : nat :=
  match a with
  | [] => 1
  | VInt n :: _ => Z.to_nat n
  | _ => 0
  end.

Definition style_step (push pop : string) (st : list (list Value)) (c : Call)
    : list (list Value) :=
  if String.eqb (fn c) push then args c :: st
  else if String.eqb (fn c) pop then skipn (pop_count (args c)) st
  else st.

Definition style_stack (push pop : string) (w : World) : list (list Value) :=
  fold_left (style_step push pop) w [].

Definition color_stack : World -> list (list Value) :=
  style_stack "PushStyleColor" "PopStyleColor".

Definition var_stack : World -> list (list Value) :=
  style_stack "PushStyleVar" "PopStyleVar".

End ImGui.

(* ------------------------------------------------------------------------ *)
(** ** imgui_sugar.hpp: namespace sugar                                      *)
(* ------------------------------------------------------------------------ *)

Module sugar.

(** [end_fn_ptr]: pointer to a function taking nothing and returning [void]. *)
Definition end_fn_ptr : Type := M unit.

(** [template<bool AlwaysCallEnd> struct guard_bool] *)
Module guard_bool.

Record t (AlwaysCallEnd : bool) : Type :=
  mk { _state : bool; _end : end_fn_ptr }.

Arguments mk {AlwaysCallEnd} _state _end.

(** [guard_bool(const bool state, const end_fn_ptr end) noexcept] *)
Definition ctor (AlwaysCallEnd : bool) (state : bool) (end_ : end_fn_ptr)
    : M (t AlwaysCallEnd) :=
  noexcept_ (ret (mk state end_)).

(** [~guard_bool() noexcept] *)
Definition dtor {AlwaysCallEnd : bool} (g : t AlwaysCallEnd) : M unit :=
  noexcept_ (if AlwaysCallEnd || _state g then _end g else ret tt).

(** [operator bool() const noexcept] *)
Definition operator_bool {AlwaysCallEnd : bool} (g : t AlwaysCallEnd) : bool :=
  _state g.

(** The struct declares no copy constructor, no move operation and no
    copy assignment, so the language declares the copy constructor
    implicitly and defines it member-wise. *)
Definition copy_ctor {AlwaysCallEnd : bool} (other : t AlwaysCallEnd)
    : M (t AlwaysCallEnd) :=
  ret (mk (_state other) (_end other)).

End guard_bool.

(** [template<typename ...Args> struct guard_void]; the pack [Args] is the
    type of the forwarded argument list. *)
Module guard_void.

(** [begin_fn_t]: pointer to a function taking [Args...] and returning
    [void]. *)
Definition begin_fn_t (Args : Type) : Type := Args -> M unit.

Record t (Args : Type) : Type := mk { _end : end_fn_ptr }.

Arguments mk {Args} _end.

(** [guard_void(begin_fn_t begin, end_fn_ptr end, Args&&... args) noexcept] *)
Definition ctor {Args : Type} (begin : begin_fn_t Args) (end_ : end_fn_ptr)
    (a : Args) : M (t Args) :=
  noexcept_ (begin a ;; ret (mk end_)).

(** [~guard_void() noexcept] *)
Definition dtor {Args : Type} (g : t Args) : M unit :=
  noexcept_ (_end g).

(** [constexpr operator bool() const noexcept] *)
Definition operator_bool {Args : Type} (g : t Args) : bool := true.

(** Implicitly declared, as for [guard_bool]. *)
Definition copy_ctor {Args : Type} (other : t Args) : M (t Args) :=
  ret (mk (_end other)).

End guard_void.

(** [inline void PopStyleColor() { ImGui::PopStyleColor(1); }] *)
Definition PopStyleColor : M unit := ImGui.call_end "PopStyleColor" [VInt 1].

(** [inline void PopStyleVar() { ImGui::PopStyleVar(1); }] *)
Definition PopStyleVar : M unit := ImGui.call_end "PopStyleVar" [VInt 1].

End sugar.

(* ------------------------------------------------------------------------ *)
(** ** The C++11 variant of the header: namespace ImGuiSugar                 *)
(* ------------------------------------------------------------------------ *)

Module ImGuiSugar.

(** [ScopeEndCallback]: pointer to a function taking nothing and returning
    [void]. *)
Definition ScopeEndCallback : Type := M unit.

(** [template<bool AlwaysCallEnd> struct BooleanGuard] *)
Module BooleanGuard.

Record t (AlwaysCallEnd : bool) : Type :=
  mk { m_state : bool; m_end : ScopeEndCallback }.

Arguments mk {AlwaysCallEnd} m_state m_end.

(** [BooleanGuard(const bool state, const ScopeEndCallback end) noexcept] *)
Definition ctor (AlwaysCallEnd : bool) (state : bool) (end_ : ScopeEndCallback)
    : M (t AlwaysCallEnd) :=
  noexcept_ (ret (mk state end_)).

(** [~BooleanGuard() noexcept] *)
Definition dtor {AlwaysCallEnd : bool} (g : t AlwaysCallEnd) : M unit :=
  noexcept_ (if AlwaysCallEnd || m_state g then m_end g else ret tt).

(** [operator bool() const & noexcept] *)
Definition operator_bool {AlwaysCallEnd : bool} (g : t AlwaysCallEnd) : bool :=
  m_state g.

(** The members are [const], which removes the implicit copy assignment
    only: the implicit copy constructor is still declared and copies
    member-wise. *)
Definition copy_ctor {AlwaysCallEnd : bool} (other : t AlwaysCallEnd)
    : M (t AlwaysCallEnd) :=
  ret (mk (m_state other) (m_end other)).

End BooleanGuard.

(** [inline void PopStyleColor() { ImGui::PopStyleColor(1); }] *)
Definition PopStyleColor : M unit := ImGui.call_end "PopStyleColor" [VInt 1].

(** [inline void PopStyleVar() { ImGui::PopStyleVar(1); }] *)
Definition PopStyleVar : M unit := ImGui.call_end "PopStyleVar" [VInt 1].

End ImGuiSugar.

(* ------------------------------------------------------------------------ *)
(** ** imgui_sugar.hpp: the generic macros                                   *)
(* ------------------------------------------------------------------------ *)

(** A macro that expands to [if (declaration)] takes the statement that
    follows it as [body]; a macro that expands to a declaration is a
    [declaration], to be placed in a block with [Decl]. *)

Section GenericMacros.

Variable lib : Library.

Definition _SUGAR_SCOPED_BOOL (BEGIN END : string) (ALWAYS : bool)
    (va_args : list Value) (body : M unit) : M unit :=
  if_ (mkDecl
         (state <- ImGui.call_bool lib BEGIN va_args ;;
          sugar.guard_bool.ctor ALWAYS state (ImGui.call_end END []))
         sugar.guard_bool.dtor
         sugar.guard_bool.operator_bool)
      body.

Definition _SUGAR_SCOPED_VOID_N (BEGIN END : string) (va_args : list Value)
    (body : M unit) : M unit :=
  if_ (mkDecl
         (sugar.guard_void.ctor (ImGui.call_void lib BEGIN)
                                (ImGui.call_end END []) va_args)
         sugar.guard_void.dtor
         sugar.guard_void.operator_bool)
      body.

Definition _SUGAR_SCOPED_VOID_0 (BEGIN END : string) (body : M unit) : M unit :=
  if_ (mkDecl
         (sugar.guard_void.ctor (ImGui.call_void lib BEGIN)
                                (ImGui.call_end END []) [])
         sugar.guard_void.dtor
         sugar.guard_void.operator_bool)
      body.

Definition _SUGAR_PARENT_SCOPED_VOID_N (BEGIN END : string)
    (va_args : list Value) : declaration :=
  mkDecl
    (sugar.guard_void.ctor (ImGui.call_void lib BEGIN)
                           (ImGui.call_end END []) va_args)
    sugar.guard_void.dtor
    sugar.guard_void.operator_bool.

(** ** The C++11 variant: the generic macros *)

(** [([&]() -> bool { FN(__VA_ARGS__); return true; }())] *)
Definition IMGUI_SUGAR_ES (FN : list Value -> M unit) (va_args : list Value)
    : M bool :=
  FN va_args ;; ret true.

(** [([&]() -> bool { FN(); return true; }())] *)
Definition IMGUI_SUGAR_ES_0 (FN : list Value -> M unit) : M bool :=
  FN [] ;; ret true.

Definition IMGUI_SUGAR_SCOPED_BOOL (BEGIN END : string) (ALWAYS : bool)
    (va_args : list Value) (body : M unit) : M unit :=
  if_ (mkDecl
         (state <- ImGui.call_bool lib BEGIN va_args ;;
          ImGuiSugar.BooleanGuard.ctor ALWAYS state (ImGui.call_end END []))
         ImGuiSugar.BooleanGuard.dtor
         ImGuiSugar.BooleanGuard.operator_bool)
      body.

Definition IMGUI_SUGAR_SCOPED_BOOL_0 (BEGIN END : string) (ALWAYS : bool)
    (body : M unit) : M unit :=
  if_ (mkDecl
         (state <- ImGui.call_bool lib BEGIN [] ;;
          ImGuiSugar.BooleanGuard.ctor ALWAYS state (ImGui.call_end END []))
         ImGuiSugar.BooleanGuard.dtor
         ImGuiSugar.BooleanGuard.operator_bool)
      body.

Definition IMGUI_SUGAR_SCOPED_VOID_N (BEGIN END : string)
    (va_args : list Value) (body : M unit) : M unit :=
  if_ (mkDecl
         (state <- IMGUI_SUGAR_ES (ImGui.call_void lib BEGIN) va_args ;;
          ImGuiSugar.BooleanGuard.ctor true state (ImGui.call_end END []))
         ImGuiSugar.BooleanGuard.dtor
         ImGuiSugar.BooleanGuard.operator_bool)
      body.

Definition IMGUI_SUGAR_SCOPED_VOID_0 (BEGIN END : string) (body : M unit)
    : M unit :=
  if_ (mkDecl
         (state <- IMGUI_SUGAR_ES_0 (ImGui.call_void lib BEGIN) ;;
          ImGuiSugar.BooleanGuard.ctor true state (ImGui.call_end END []))
         ImGuiSugar.BooleanGuard.dtor
         ImGuiSugar.BooleanGuard.operator_bool)
      body.

Definition IMGUI_SUGAR_PARENT_SCOPED_VOID_N (BEGIN END : string)
    (va_args : list Value) : declaration :=
  mkDecl
    (state <- IMGUI_SUGAR_ES (ImGui.call_void lib BEGIN) va_args ;;
     ImGuiSugar.BooleanGuard.ctor true state (ImGui.call_end END []))
    ImGuiSugar.BooleanGuard.dtor
    ImGuiSugar.BooleanGuard.operator_bool.

End GenericMacros.

(* ------------------------------------------------------------------------ *)
(** ** imgui_sugar.hpp: the DSL                                              *)
(* ------------------------------------------------------------------------ *)

Module DSL.
Section Entries.

Variable lib : Library.

(** Self scoped blocks *)
Definition with_Window := _SUGAR_SCOPED_BOOL lib "Begin" "End" true.
Definition with_Child := _SUGAR_SCOPED_BOOL lib "BeginChild" "EndChild" true.
Definition with_ChildFrame := _SUGAR_SCOPED_BOOL lib "BeginChildFrame" "EndChildFrame" true.
Definition with_Combo := _SUGAR_SCOPED_BOOL lib "BeginCombo" "EndCombo" false.
Definition with_ListBox := _SUGAR_SCOPED_BOOL lib "BeginListBox" "EndListBox" false.
Definition with_MenuBarArgs := _SUGAR_SCOPED_BOOL lib "BeginMenuBar" "EndMenuBar" false.
Definition with_MainMenuBarArgs := _SUGAR_SCOPED_BOOL lib "BeginMainMenuBar" "EndMainMenuBar" false.
Definition with_Menu := _SUGAR_SCOPED_BOOL lib "BeginMenu" "EndMenu" false.
Definition with_Popup := _SUGAR_SCOPED_BOOL lib "BeginPopup" "EndPopup" false.
Definition with_PopupModal := _SUGAR_SCOPED_BOOL lib "BeginPopupModal" "EndPopup" false.
Definition with_PopupContextItem := _SUGAR_SCOPED_BOOL lib "BeginPopupContextItem" "EndPopup" false.
Definition with_PopupContextWindow := _SUGAR_SCOPED_BOOL lib "BeginPopupContextWindow" "EndPopup" false.
Definition with_PopupContextVoid := _SUGAR_SCOPED_BOOL lib "BeginPopupContextVoid" "EndPopup" false.
Definition with_Table := _SUGAR_SCOPED_BOOL lib "BeginTable" "EndTable" false.
Definition with_TabBar := _SUGAR_SCOPED_BOOL lib "BeginTabBar" "EndTabBar" false.
Definition with_TabItem := _SUGAR_SCOPED_BOOL lib "BeginTabItem" "EndTabItem" false.
Definition with_DragDropSource := _SUGAR_SCOPED_BOOL lib "BeginDragDropSource" "EndDragDropSource" false.
Definition with_DragDropTargetArgs := _SUGAR_SCOPED_BOOL lib "BeginDragDropTarget" "EndDragDropTarget" false.
Definition with_TreeNode := _SUGAR_SCOPED_BOOL lib "TreeNode" "TreePop" false.
Definition with_TreeNodeV := _SUGAR_SCOPED_BOOL lib "TreeNodeV" "TreePop" false.
Definition with_TreeNodeEx := _SUGAR_SCOPED_BOOL lib "TreeNodeEx" "TreePop" false.
Definition with_TreeNodeExV := _SUGAR_SCOPED_BOOL lib "TreeNodeExV" "TreePop" false.

Definition with_DragDropTarget := with_DragDropTargetArgs [].
Definition with_MainMenuBar := with_MainMenuBarArgs [].
Definition with_MenuBar := with_MenuBarArgs [].

Definition with_Group := _SUGAR_SCOPED_VOID_0 lib "BeginGroup" "EndGroup".
Definition with_Tooltip := _SUGAR_SCOPED_VOID_0 lib "BeginTooltip" "EndTooltip".

Definition with_Font := _SUGAR_SCOPED_VOID_N lib "PushFont" "PopFont".
Definition with_AllowKeyboardFocus := _SUGAR_SCOPED_VOID_N lib "PushAllowKeyboardFocus" "PopAllowKeyboardFocus".
Definition with_ButtonRepeat := _SUGAR_SCOPED_VOID_N lib "PushButtonRepeat" "PopButtonRepeat".
Definition with_ItemWidth := _SUGAR_SCOPED_VOID_N lib "PushItemWidth" "PopItemWidth".
Definition with_TextWrapPos := _SUGAR_SCOPED_VOID_N lib "PushTextWrapPos" "PopTextWrapPos".
Definition with_ID := _SUGAR_SCOPED_VOID_N lib "PushID" "PopID".
Definition with_ClipRect := _SUGAR_SCOPED_VOID_N lib "PushClipRect" "PopClipRect".
Definition with_TextureID := _SUGAR_SCOPED_VOID_N lib "PushTextureID" "PopTextureID".

(** Non self scoped guards (managed by parent scope) *)

Definition set_Font := _SUGAR_PARENT_SCOPED_VOID_N lib "PushFont" "PopFont".
Definition set_AllowKeyboardFocus := _SUGAR_PARENT_SCOPED_VOID_N lib "PushAllowKeyboardFocus" "PopAllowKeyboardFocus".
Definition set_ButtonRepeat := _SUGAR_PARENT_SCOPED_VOID_N lib "PushButtonRepeat" "PopButtonRepeat".
Definition set_ItemWidth := _SUGAR_PARENT_SCOPED_VOID_N lib "PushItemWidth" "PopItemWidth".
Definition set_TextWrapPos := _SUGAR_PARENT_SCOPED_VOID_N lib "PushTextWrapPos" "PopTextWrapPos".
Definition set_ID := _SUGAR_PARENT_SCOPED_VOID_N lib "PushID" "PopID".
Definition set_ClipRect := _SUGAR_PARENT_SCOPED_VOID_N lib "PushClipRect" "PopClipRect".
Definition set_TextureID := _SUGAR_PARENT_SCOPED_VOID_N lib "PushTextureID" "PopTextureID".

(** Special case (overloaded functions StyleColor and StyleVar).  Which
    overload of the push function the guard is instantiated with is a
    matter of types and is modelled in [Overloads] below; at run time the
    guard calls the push function with the item and the trailing
    arguments. *)

Definition set_StyleColor (ITEM : Value) (va_args : list Value) : declaration :=
  mkDecl
    (sugar.guard_void.ctor (ImGui.call_void lib "PushStyleColor")
                           sugar.PopStyleColor (ITEM :: va_args))
    sugar.guard_void.dtor
    sugar.guard_void.operator_bool.

Definition set_StyleVar (ITEM : Value) (va_args : list Value) : declaration :=
  mkDecl
    (sugar.guard_void.ctor (ImGui.call_void lib "PushStyleVar")
                           sugar.PopStyleVar (ITEM :: va_args))
    sugar.guard_void.dtor
    sugar.guard_void.operator_bool.

Definition with_StyleColor (ITEM : Value) (va_args : list Value)
    (body : M unit) : M unit :=
  if_ (set_StyleColor ITEM va_args) body.

Definition with_StyleVar (ITEM : Value) (va_args : list Value)
    (body : M unit) : M unit :=
  if_ (set_StyleVar ITEM va_args) body.

(** Non RAII *)

Definition with_CollapsingHeader (va_args : list Value) (body : M unit)
    : M unit :=
  b <- ImGui.call_bool lib "CollapsingHeader" va_args ;;
  if b then body else ret tt.

End Entries.
End DSL.

(* ------------------------------------------------------------------------ *)
(** ** The C++11 variant: the DSL                                            *)
(* ------------------------------------------------------------------------ *)

Module DSL11.
Section Entries.

Variable lib : Library.

(** Self scoped blocks *)
Definition with_Window := IMGUI_SUGAR_SCOPED_BOOL lib "Begin" "End" true.
Definition with_Child := IMGUI_SUGAR_SCOPED_BOOL lib "BeginChild" "EndChild" true.
Definition with_ChildFrame := IMGUI_SUGAR_SCOPED_BOOL lib "BeginChildFrame" "EndChildFrame" true.
Definition with_Combo := IMGUI_SUGAR_SCOPED_BOOL lib "BeginCombo" "EndCombo" false.
Definition with_ListBox := IMGUI_SUGAR_SCOPED_BOOL lib "BeginListBox" "EndListBox" false.
Definition with_Menu := IMGUI_SUGAR_SCOPED_BOOL lib "BeginMenu" "EndMenu" false.
Definition with_Popup := IMGUI_SUGAR_SCOPED_BOOL lib "BeginPopup" "EndPopup" false.
Definition with_PopupModal := IMGUI_SUGAR_SCOPED_BOOL lib "BeginPopupModal" "EndPopup" false.
Definition with_PopupContextItem := IMGUI_SUGAR_SCOPED_BOOL lib "BeginPopupContextItem" "EndPopup" false.
Definition with_PopupContextWindow := IMGUI_SUGAR_SCOPED_BOOL lib "BeginPopupContextWindow" "EndPopup" false.
Definition with_PopupContextVoid := IMGUI_SUGAR_SCOPED_BOOL lib "BeginPopupContextVoid" "EndPopup" false.
Definition with_Table := IMGUI_SUGAR_SCOPED_BOOL lib "BeginTable" "EndTable" false.
Definition with_TabBar := IMGUI_SUGAR_SCOPED_BOOL lib "BeginTabBar" "EndTabBar" false.
Definition with_TabItem := IMGUI_SUGAR_SCOPED_BOOL lib "BeginTabItem" "EndTabItem" false.
Definition with_DragDropSource := IMGUI_SUGAR_SCOPED_BOOL lib "BeginDragDropSource" "EndDragDropSource" false.
Definition with_TreeNode := IMGUI_SUGAR_SCOPED_BOOL lib "TreeNode" "TreePop" false.
Definition with_TreeNodeV := IMGUI_SUGAR_SCOPED_BOOL lib "TreeNodeV" "TreePop" false.
Definition with_TreeNodeEx := IMGUI_SUGAR_SCOPED_BOOL lib "TreeNodeEx" "TreePop" false.
Definition with_TreeNodeExV := IMGUI_SUGAR_SCOPED_BOOL lib "TreeNodeExV" "TreePop" false.

Definition with_DragDropTarget :=
  IMGUI_SUGAR_SCOPED_BOOL_0 lib "BeginDragDropTarget" "EndDragDropTarget" false.
Definition with_MainMenuBar :=
  IMGUI_SUGAR_SCOPED_BOOL_0 lib "BeginMainMenuBar" "EndMainMenuBar" false.
Definition with_MenuBar :=
  IMGUI_SUGAR_SCOPED_BOOL_0 lib "BeginMenuBar" "EndMenuBar" false.

Definition with_Group := IMGUI_SUGAR_SCOPED_VOID_0 lib "BeginGroup" "EndGroup".
Definition with_Tooltip := IMGUI_SUGAR_SCOPED_VOID_0 lib "BeginTooltip" "EndTooltip".

Definition with_Font := IMGUI_SUGAR_SCOPED_VOID_N lib "PushFont" "PopFont".
Definition with_AllowKeyboardFocus := IMGUI_SUGAR_SCOPED_VOID_N lib "PushAllowKeyboardFocus" "PopAllowKeyboardFocus".
Definition with_ButtonRepeat := IMGUI_SUGAR_SCOPED_VOID_N lib "PushButtonRepeat" "PopButtonRepeat".
Definition with_ItemWidth := IMGUI_SUGAR_SCOPED_VOID_N lib "PushItemWidth" "PopItemWidth".
Definition with_TextWrapPos := IMGUI_SUGAR_SCOPED_VOID_N lib "PushTextWrapPos" "PopTextWrapPos".
Definition with_ID := IMGUI_SUGAR_SCOPED_VOID_N lib "PushID" "PopID".
Definition with_ClipRect := IMGUI_SUGAR_SCOPED_VOID_N lib "PushClipRect" "PopClipRect".
Definition with_TextureID := IMGUI_SUGAR_SCOPED_VOID_N lib "PushTextureID" "PopTextureID".

(** Non self scoped guards (managed by parent scope) *)

Definition set_Font := IMGUI_SUGAR_PARENT_SCOPED_VOID_N lib "PushFont" "PopFont".
Definition set_AllowKeyboardFocus := IMGUI_SUGAR_PARENT_SCOPED_VOID_N lib "PushAllowKeyboardFocus" "PopAllowKeyboardFocus".
Definition set_ButtonRepeat := IMGUI_SUGAR_PARENT_SCOPED_VOID_N lib "PushButtonRepeat" "PopButtonRepeat".
Definition set_ItemWidth := IMGUI_SUGAR_PARENT_SCOPED_VOID_N lib "PushItemWidth" "PopItemWidth".
Definition set_TextWrapPos := IMGUI_SUGAR_PARENT_SCOPED_VOID_N lib "PushTextWrapPos" "PopTextWrapPos".
Definition set_ID := IMGUI_SUGAR_PARENT_SCOPED_VOID_N lib "PushID" "PopID".
Definition set_ClipRect := IMGUI_SUGAR_PARENT_SCOPED_VOID_N lib "PushClipRect" "PopClipRect".
Definition set_TextureID := IMGUI_SUGAR_PARENT_SCOPED_VOID_N lib "PushTextureID" "PopTextureID".

(** Special case (overloaded functions StyleColor and StyleVar) *)

Definition set_StyleColor (va_args : list Value) : declaration :=
  mkDecl
    (state <- IMGUI_SUGAR_ES (ImGui.call_void lib "PushStyleColor") va_args ;;
     ImGuiSugar.BooleanGuard.ctor true state ImGuiSugar.PopStyleColor)
    ImGuiSugar.BooleanGuard.dtor
    ImGuiSugar.BooleanGuard.operator_bool.

Definition set_StyleVar (va_args : list Value) : declaration :=
  mkDecl
    (state <- IMGUI_SUGAR_ES (ImGui.call_void lib "PushStyleVar") va_args ;;
     ImGuiSugar.BooleanGuard.ctor true state ImGuiSugar.PopStyleVar)
    ImGuiSugar.BooleanGuard.dtor
    ImGuiSugar.BooleanGuard.operator_bool.

Definition with_StyleColor (va_args : list Value) (body : M unit) : M unit :=
  if_ (mkDecl
         (state <- IMGUI_SUGAR_ES (ImGui.call_void lib "PushStyleColor") va_args ;;
          ImGuiSugar.BooleanGuard.ctor true state ImGuiSugar.PopStyleColor)
         ImGuiSugar.BooleanGuard.dtor
         ImGuiSugar.BooleanGuard.operator_bool)
      body.

Definition with_StyleVar (va_args : list Value) (body : M unit) : M unit :=
  if_ (mkDecl
         (state <- IMGUI_SUGAR_ES (ImGui.call_void lib "PushStyleVar") va_args ;;
          ImGuiSugar.BooleanGuard.ctor true state ImGuiSugar.PopStyleVar)
         ImGuiSugar.BooleanGuard.dtor
         ImGuiSugar.BooleanGuard.operator_bool)
      body.

(** Non RAII *)

Definition with_CollapsingHeader (va_args : list Value) (body : M unit)
    : M unit :=
  b <- ImGui.call_bool lib "CollapsingHeader" va_args ;;
  if b then body else ret tt.

Definition with_MenuItem (va_args : list Value) (body : M unit) : M unit :=
  b <- ImGui.call_bool lib "MenuItem" va_args ;;
  if b then body else ret tt.

End Entries.
End DSL11.

(* ------------------------------------------------------------------------ *)
(** ** Types, type traits and overload sets                                  *)
(* ------------------------------------------------------------------------ *)

Module Overloads.

(** The C++ types that reach the traits of [set_StyleColor] and
    [set_StyleVar]: [decltype] of the trailing argument may be any of them. *)
Inductive CType : Type :=
  | TBool | TChar | TSChar | TUChar | TWChar | TChar16 | TChar32
  | TShort | TUShort | TInt | TUInt | TLong | TULong | TLongLong | TULongLong
  | TFloat | TDouble | TLongDouble
  | TEnum (name : string)
  | TClass (name : string)
  | TPointer (t : CType)
  | TConst (t : CType)
  | TVolatile (t : CType)
  | TLRef (t : CType)
  | TRRef (t : CType).

Definition CType_eq_dec : forall a b : CType, {a = b} + {a <> b}.
Proof. decide equality; apply string_dec. Defined.

Definition signature_eqb (a b : list CType) : bool :=
  if list_eq_dec CType_eq_dec a b then true else false.

(** [std::remove_cv] *)
Fixpoint remove_cv (t : CType) : CType :=
  match t with
  | TConst u => remove_cv u
  | TVolatile u => remove_cv u
  | _ => t
  end.

(** [std::is_integral]: [bool], the character types and the signed and
    unsigned integer types, with any cv-qualification; not enumerations, not
    references. *)
Definition is_integral (t : CType) : bool :=
  match remove_cv t with
  | TBool | TChar | TSChar | TUChar | TWChar | TChar16 | TChar32
  | TShort | TUShort | TInt | TUInt | TLong | TULong | TLongLong | TULongLong =>
      true
  | _ => false
  end.

(** [std::is_floating_point] *)
Definition is_floating_point (t : CType) : bool :=
  match remove_cv t with
  | TFloat | TDouble | TLongDouble => true
  | _ => false
  end.

(** [std::is_arithmetic] *)
Definition is_arithmetic (t : CType) : bool :=
  is_integral t || is_floating_point t.

(** [std::conditional<B, T, F>::type] *)
Definition conditional (B : bool) (T F : CType) : CType := if B then T else F.

(** The names [imgui.h] gives to the types involved. *)
Definition ImGuiCol : CType := TInt.
Definition ImGuiStyleVar : CType := TInt.
Definition ImU32 : CType := TUInt.
Definition ImVec2 : CType := TClass "ImVec2".
Definition ImVec4 : CType := TClass "ImVec4".

(** The overloads [imgui.h] declares, each by its parameter list. *)
Definition PushStyleColor_ImU32 : list CType := [ImGuiCol; ImU32].
Definition PushStyleColor_ImVec4 : list CType := [ImGuiCol; TLRef (TConst ImVec4)].
Definition PushStyleVar_float : list CType := [ImGuiStyleVar; TFloat].
Definition PushStyleVar_ImVec2 : list CType := [ImGuiStyleVar; TLRef (TConst ImVec2)].

Definition PushStyleColor : list (list CType) :=
  [PushStyleColor_ImU32; PushStyleColor_ImVec4].
Definition PushStyleVar : list (list CType) :=
  [PushStyleVar_float; PushStyleVar_ImVec2].

(** [&ImGui::F] converted to [begin_fn_t], a pointer to a function taking
    [Args...]: the overload whose parameter list is [Args...] is the one
    selected, if there is one. *)
Definition address_of (overload_set : list (list CType)) (Args : list CType)
    : option (list CType) :=
  find (signature_eqb Args) overload_set.

(** An expression as a macro argument: its [decltype] and the value it
    evaluates to. *)
Record Expr : Type := mkExpr { decltype : CType; eval : Value }.

(** The template arguments of [sugar::guard_void] in [set_StyleColor]:
    [ImGuiCol] and
    [std::conditional<std::is_integral<decltype(__VA_ARGS__)>::value,
                      ImU32, const ImVec4&>::type]. *)
Definition set_StyleColor_Args (va_args : Expr) : list CType :=
  [ImGuiCol;
   conditional (is_integral (decltype va_args)) ImU32 (TLRef (TConst ImVec4))].

(** The template arguments of [sugar::guard_void] in [set_StyleVar]:
    [ImGuiStyleVar] and
    [std::conditional<std::is_arithmetic<decltype(__VA_ARGS__)>::value,
                      float, const ImVec2&>::type]. *)
Definition set_StyleVar_Args (va_args : Expr) : list CType :=
  [ImGuiStyleVar;
   conditional (is_arithmetic (decltype va_args)) TFloat (TLRef (TConst ImVec2))].

(** The push function the guard of [set_StyleColor] is constructed with:
    [&ImGui::PushStyleColor] at the guard's [begin_fn_t]. *)
Definition set_StyleColor_begin (va_args : Expr) : option (list CType) :=
  address_of PushStyleColor (set_StyleColor_Args va_args).

Definition set_StyleVar_begin (va_args : Expr) : option (list CType) :=
  address_of PushStyleVar (set_StyleVar_Args va_args).

End Overloads.

(* ------------------------------------------------------------------------ *)
(** ** Programs built from the constructs                                    *)
(* ------------------------------------------------------------------------ *)

(** One use of a self scoped construct: the generic macro it expands to and
    the arguments of the expansion. *)
Inductive self_scoped : Type :=
  | ScopedBool (BEGIN END : string) (ALWAYS : bool) (va_args : list Value)
  | ScopedVoid (BEGIN END : string) (va_args : list Value)
  | ScopedStyleColor (ITEM : Value) (va_args : list Value)
  | ScopedStyleVar (ITEM : Value) (va_args : list Value).

Definition begin_call (c : self_scoped) : Call :=
  match c with
  | ScopedBool BEGIN _ _ va_args => mkCall BEGIN va_args
  | ScopedVoid BEGIN _ va_args => mkCall BEGIN va_args
  | ScopedStyleColor ITEM va_args => mkCall "PushStyleColor" (ITEM :: va_args)
  | ScopedStyleVar ITEM va_args => mkCall "PushStyleVar" (ITEM :: va_args)
  end.

Definition end_call (c : self_scoped) : Call :=
  match c with
  | ScopedBool _ END _ _ => mkCall END []
  | ScopedVoid _ END _ => mkCall END []
  | ScopedStyleColor _ _ => mkCall "PopStyleColor" [VInt 1]
  | ScopedStyleVar _ _ => mkCall "PopStyleVar" [VInt 1]
  end.

(** The construct with its body, in [imgui_sugar.hpp] and in the C++11
    variant. *)
Definition expand (lib : Library) (c : self_scoped) (body : M unit) : M unit :=
  match c with
  | ScopedBool BEGIN END ALWAYS va_args =>
      _SUGAR_SCOPED_BOOL lib BEGIN END ALWAYS va_args body
  | ScopedVoid BEGIN END va_args =>
      _SUGAR_SCOPED_VOID_N lib BEGIN END va_args body
  | ScopedStyleColor ITEM va_args => DSL.with_StyleColor lib ITEM va_args body
  | ScopedStyleVar ITEM va_args => DSL.with_StyleVar lib ITEM va_args body
  end.

Definition expand11 (lib : Library) (c : self_scoped) (body : M unit) : M unit :=
  match c with
  | ScopedBool BEGIN END ALWAYS va_args =>
      IMGUI_SUGAR_SCOPED_BOOL lib BEGIN END ALWAYS va_args body
  | ScopedVoid BEGIN END va_args =>
      IMGUI_SUGAR_SCOPED_VOID_N lib BEGIN END va_args body
  | ScopedStyleColor ITEM va_args => DSL11.with_StyleColor lib (ITEM :: va_args) body
  | ScopedStyleVar ITEM va_args => DSL11.with_StyleVar lib (ITEM :: va_args) body
  end.

(** Constructs nested within one another, outermost first, around [body]. *)
Definition nest (lib : Library) (cs : list self_scoped) (body : M unit) : M unit :=
  fold_right (expand lib) body cs.

Definition nest11 (lib : Library) (cs : list self_scoped) (body : M unit) : M unit :=
  fold_right (expand11 lib) body cs.

(** The construct is acquired at log [w]: its begin function returns, and
    returns [true] if it returns a boolean. *)
Definition acquires (lib : Library) (c : self_scoped) (w : World) : bool :=
  match c with
  | ScopedBool BEGIN _ _ va_args =>
      match lib BEGIN va_args w with Ok true => true | _ => false end
  | ScopedVoid BEGIN _ va_args =>
      match lib BEGIN va_args w with Ok _ => true | Raise _ => false end
  | ScopedStyleColor ITEM va_args =>
      match lib "PushStyleColor" (ITEM :: va_args) w with
      | Ok _ => true
      | Raise _ => false
      end
  | ScopedStyleVar ITEM va_args =>
      match lib "PushStyleVar" (ITEM :: va_args) w with
      | Ok _ => true
      | Raise _ => false
      end
  end.

Fixpoint acquired (lib : Library) (cs : list self_scoped) (w : World) : bool :=
  match cs with
  | [] => true
  | c :: rest => acquires lib c w && acquired lib rest (w ++ [begin_call c])
  end.



(** The log a construct leaves before any release: the body's log when the
    body ran, the log after the begin call otherwise. *)
Definition log_before_release (ran : bool) (body : M unit) (w1 : World) : World :=
  if ran then snd (body w1) else w1.

Definition returns_true (r : Reply) : bool :=
  match r with Ok true => true | _ => false end.

Definition returns (r : Reply) : bool :=
  match r with Ok _ => true | Raise _ => false end.

(** The two overloaded style entries, taken together. *)
Inductive style : Type := StyleColor | StyleVar.

Definition push_fn (k : style) : string :=
  match k with StyleColor => "PushStyleColor" | StyleVar => "PushStyleVar" end.

Definition pop_fn (k : style) : string :=
  match k with StyleColor => "PopStyleColor" | StyleVar => "PopStyleVar" end.

Definition stack_of (k : style) : World -> list (list Value) :=
  match k with StyleColor => ImGui.color_stack | StyleVar => ImGui.var_stack end.

Definition set_Style (lib : Library) (k : style) (ITEM : Value)
    (va_args : list Value) : declaration :=
  match k with
  | StyleColor => DSL.set_StyleColor lib ITEM va_args
  | StyleVar => DSL.set_StyleVar lib ITEM va_args
  end.

Definition with_Style (lib : Library) (k : style) (ITEM : Value)
    (va_args : list Value) (body : M unit) : M unit :=
  match k with
  | StyleColor => DSL.with_StyleColor lib ITEM va_args body
  | StyleVar => DSL.with_StyleVar lib ITEM va_args body
  end.

Definition set_Style11 (lib : Library) (k : style) (va_args : list Value)
    : declaration :=
  match k with
  | StyleColor => DSL11.set_StyleColor lib va_args
  | StyleVar => DSL11.set_StyleVar lib va_args
  end.

Definition with_Style11 (lib : Library) (k : style) (va_args : list Value)
    (body : M unit) : M unit :=
  match k with
  | StyleColor => DSL11.with_StyleColor lib va_args body
  | StyleVar => DSL11.with_StyleVar lib va_args body
  end.

(** What a scope does once its guard exists: the code of the scope, then
    one end call unless the program was terminated. *)
Definition then_release (body : M unit) (release : Call) (w1 : World)
    : outcome unit * World :=
  match body w1 with
  | (Terminate, w2) => (Terminate, w2)
  | (r, w2) => (r, w2 ++ [release])
  end.

(** A library stub for examples: every call returns, with [answer]. *)
Definition stub (answer : bool) : Library := fun _ _ _ => Ok answer.

(** A library stub whose [Begin*] and [Push*] calls all fail. *)
Definition failing_stub : Library := fun _ _ _ => Raise "failed".

(** A body that calls [ImGui::Text(s)]. *)
Definition text (s : string) : M unit := ImGui.call_end "Text" [VStr s].

(* ------------------------------------------------------------------------ *)
(** ** imgui_sugar.hpp: the utility macros                                   *)
(* ------------------------------------------------------------------------ *)

(** The preprocessing tokens the utility macros are applied to: an
    identifier, the predefined macro [__LINE__], and the number that
    [__LINE__] is replaced by when it is expanded. *)
Inductive pp_token : Type :=
  | Identifier (s : string)
  | LINE
  | PPNumber (s : string).

Definition spelling (t : pp_token) : string :=
  match t with
  | Identifier s => s
  | LINE => "__LINE__"
  | PPNumber s => s
  end.

(** Macro expansion of one argument on source line [line]. *)
Definition expand_argument (line : nat) (t : pp_token) : pp_token :=
  match t with
  | LINE => PPNumber (NilEmpty.string_of_uint (Nat.to_uint line))
  | other => other
  end.

(** [#define _SUGAR_CONCAT0(A, B) A ## B]: the operands of [##] are pasted
    as they are spelled, without being expanded. *)
Definition _SUGAR_CONCAT0 (A B : pp_token) : pp_token :=
  Identifier (spelling A ++ spelling B).

(** [#define _SUGAR_CONCAT1(A, B) _SUGAR_CONCAT0(A, B)]: the arguments are
    not operands of [##] here, so they are expanded before they are
    substituted. *)
Definition _SUGAR_CONCAT1 (line : nat) (A B : pp_token) : pp_token :=
  _SUGAR_CONCAT0 (expand_argument line A) (expand_argument line B).

(** The name of the guard that a parent scoped construct on line [line]
    declares: [_SUGAR_CONCAT1(_ui_scope_, __LINE__)]. *)
Definition parent_guard_name (line : nat) : pp_token :=
  _SUGAR_CONCAT1 line (Identifier "_ui_scope_") LINE.

(** Library stubs for examples: every call returns [true] except the calls
    of [f], which return [false], or which fail. *)
Definition stub_false_on (f : string) : Library :=
  fun g _ _ => Ok (negb (String.eqb g f)).

Definition stub_failing_on (f : string) : Library :=
  fun g _ _ => if String.eqb g f then Raise "failed" else Ok true.

(** One use of a parent scoped construct: a void entry, or one of the two
    style entries. *)
Inductive parent_scoped : Type :=
  | ParentVoid (BEGIN END : string) (va_args : list Value)
  | ParentStyle (k : style) (ITEM : Value) (va_args : list Value).

Definition parent_begin (p : parent_scoped) : Call :=
  match p with
  | ParentVoid BEGIN _ va_args => mkCall BEGIN va_args
  | ParentStyle k ITEM va_args => mkCall (push_fn k) (ITEM :: va_args)
  end.

Definition parent_end (p : parent_scoped) : Call :=
  match p with
  | ParentVoid _ END _ => mkCall END []
  | ParentStyle k _ _ => mkCall (pop_fn k) [VInt 1]
  end.

(** The declaration the construct expands to, in [imgui_sugar.hpp] and in
    the C++11 variant. *)
Definition declare (lib : Library) (p : parent_scoped) : declaration :=
  match p with
  | ParentVoid BEGIN END va_args =>
      _SUGAR_PARENT_SCOPED_VOID_N lib BEGIN END va_args
  | ParentStyle k ITEM va_args => set_Style lib k ITEM va_args
  end.

Definition declare11 (lib : Library) (p : parent_scoped) : declaration :=
  match p with
  | ParentVoid BEGIN END va_args =>
      IMGUI_SUGAR_PARENT_SCOPED_VOID_N lib BEGIN END va_args
  | ParentStyle k ITEM va_args => set_Style11 lib k (ITEM :: va_args)
  end.

(** The push of the construct returns at log [w]. *)
Definition pushes (lib : Library) (p : parent_scoped) (w : World) : bool :=
  returns (lib (fn (parent_begin p)) (args (parent_begin p)) w).

Fixpoint all_pushed (lib : Library) (ps : list parent_scoped) (w : World) : bool :=
  match ps with
  | [] => true
  | p :: rest => pushes lib p w && all_pushed lib rest (w ++ [parent_begin p])
  end.

(** A call that the style stack [k] reacts to. *)
Definition touches (k : style) (c : Call) : bool :=
  String.eqb (fn c) (push_fn k) || String.eqb (fn c) (pop_fn k).

(** A begin call and an end call that together leave the style stack [k]
    alone: a push of [k] with a pop of one entry of [k], or two calls the
    stack does not react to. *)
Definition style_pair (k : style) (b e : Call) : bool :=
  (String.eqb (fn b) (push_fn k) && String.eqb (fn e) (pop_fn k)
   && Nat.eqb (ImGui.pop_count (args e)) 1)
  || (negb (touches k b) && negb (touches k e)).

Definition style_safe (k : style) (c : self_scoped) : bool :=
  style_pair k (begin_call c) (end_call c).

Definition parent_style_safe (k : style) (p : parent_scoped) : bool :=
  style_pair k (parent_begin p) (parent_end p).

(* ======================================================================== *)
(** * Properties                                                             *)
(* ======================================================================== *)

(** ** Working lemmas on the statement monad *)

Lemma count_calls_app :
  forall f w1 w2, count_calls f (w1 ++ w2) = count_calls f w1 + count_calls f w2.
Proof.
  intros f w1 w2; induction w1 as [|c w1 IH]; simpl; [reflexivity|].
  rewrite IH; lia.
Qed.

Lemma count_calls_last :
  forall f a w, count_calls f (w ++ [mkCall f a]) = count_calls f w + 1.
Proof.
  intros f a w; rewrite count_calls_app; simpl.
  rewrite String.eqb_refl; lia.
Qed.

Lemma bind_normal :
  forall A B (m : M A) (k : A -> M B) w a w1,
    m w = (Normal a, w1) -> bind m k w = k a w1.
Proof. intros A B m k w a w1 H; unfold bind; rewrite H; reflexivity. Qed.

Lemma scope_exit_run :
  forall A (m : M A) (d : M unit) w r w1 w2,
    m w = (r, w1) -> r <> Terminate -> d w1 = (Normal tt, w2) ->
    scope_exit m d w = (r, w2).
Proof.
  intros A m d w r w1 w2 Hm Hr Hd; unfold scope_exit; rewrite Hm.
  destruct r; try congruence; rewrite Hd; reflexivity.
Qed.

Lemma scope_exit_terminate :
  forall A (m : M A) (d : M unit) w w1,
    m w = (Terminate, w1) -> scope_exit m d w = (Terminate, w1).
Proof. intros A m d w w1 Hm; unfold scope_exit; rewrite Hm; reflexivity. Qed.

Lemma decl_in_run :
  forall G A (init : M G) (dtor : G -> M unit) (k : G -> M A) w g w1 r w2 w3,
    init w = (Normal g, w1) -> k g w1 = (r, w2) -> r <> Terminate ->
    dtor g w2 = (Normal tt, w3) ->
    decl_in init dtor k w = (r, w3).
Proof.
  intros G A init dtor k w g w1 r w2 w3 Hi Hk Hr Hd; unfold decl_in.
  erewrite bind_normal by exact Hi; eapply scope_exit_run; eassumption.
Qed.

(** The initialisers of the guards, when the begin function returns. *)

Lemma guard_bool_init :
  forall lib BEGIN END ALWAYS va_args w b,
    lib BEGIN va_args w = Ok b ->
    (state <- ImGui.call_bool lib BEGIN va_args ;;
     sugar.guard_bool.ctor ALWAYS state (ImGui.call_end END [])) w
    = (Normal (sugar.guard_bool.mk b (ImGui.call_end END [])),
       w ++ [mkCall BEGIN va_args]).
Proof.
  intros lib BEGIN END ALWAYS va_args w b H.
  unfold bind, ImGui.call_bool; rewrite H; reflexivity.
Qed.

Lemma BooleanGuard_init :
  forall lib BEGIN END ALWAYS va_args w b,
    lib BEGIN va_args w = Ok b ->
    (state <- ImGui.call_bool lib BEGIN va_args ;;
     ImGuiSugar.BooleanGuard.ctor ALWAYS state (ImGui.call_end END [])) w
    = (Normal (ImGuiSugar.BooleanGuard.mk b (ImGui.call_end END [])),
       w ++ [mkCall BEGIN va_args]).
Proof.
  intros lib BEGIN END ALWAYS va_args w b H.
  unfold bind, ImGui.call_bool; rewrite H; reflexivity.
Qed.

Lemma guard_void_init :
  forall lib BEGIN (end_ : M unit) va_args w b,
    lib BEGIN va_args w = Ok b ->
    sugar.guard_void.ctor (ImGui.call_void lib BEGIN) end_ va_args w
    = (Normal (sugar.guard_void.mk end_), w ++ [mkCall BEGIN va_args]).
Proof.
  intros lib BEGIN end_ va_args w b H.
  unfold sugar.guard_void.ctor, noexcept_, bind, ImGui.call_void.
  rewrite H; reflexivity.
Qed.

Lemma ES_guard_init :
  forall lib BEGIN (end_ : M unit) va_args w b,
    lib BEGIN va_args w = Ok b ->
    (state <- IMGUI_SUGAR_ES (ImGui.call_void lib BEGIN) va_args ;;
     ImGuiSugar.BooleanGuard.ctor true state end_) w
    = (Normal (ImGuiSugar.BooleanGuard.mk true end_),
       w ++ [mkCall BEGIN va_args]).
Proof.
  intros lib BEGIN end_ va_args w b H.
  unfold IMGUI_SUGAR_ES, bind, ImGui.call_void; rewrite H; reflexivity.
Qed.

(* ------------------------------------------------------------------------ *)
(** ** Self scoped constructs over a boolean begin function                  *)
(* ------------------------------------------------------------------------ *)

(** C1. For the self scoped construct over a boolean begin function, in
    [imgui_sugar.hpp] and in the C++11 variant, with either release policy:
    when the begin function returns [true], the body runs once, from the log
    that the begin call left, and whichever way the body completes (normally,
    by [return], [break] or [continue], or by an exception) the end function
    is called once more, as the last call, and the construct completes the
    way the body did. *)
Theorem scoped_bool_true_body_then_end_once :
  forall (lib : Library) (BEGIN END : string) (ALWAYS : bool)
         (va_args : list Value) (body : M unit) (w : World)
         (r : outcome unit) (w2 : World),
    lib BEGIN va_args w = Ok true ->
    body (w ++ [mkCall BEGIN va_args]) = (r, w2) ->
    r <> Terminate ->
    _SUGAR_SCOPED_BOOL lib BEGIN END ALWAYS va_args body w
      = (r, w2 ++ [mkCall END []])
    /\ IMGUI_SUGAR_SCOPED_BOOL lib BEGIN END ALWAYS va_args body w
      = (r, w2 ++ [mkCall END []])
    /\ IMGUI_SUGAR_SCOPED_BOOL_0 lib BEGIN END ALWAYS body
      = IMGUI_SUGAR_SCOPED_BOOL lib BEGIN END ALWAYS [] body
    /\ count_calls END (w2 ++ [mkCall END []]) = count_calls END w2 + 1.
Proof.
  intros lib BEGIN END ALWAYS va_args body w r w2 Hb Hbody Hr.
  repeat split.
  - unfold _SUGAR_SCOPED_BOOL, if_; simpl.
    eapply decl_in_run.
    + apply guard_bool_init; exact Hb.
    + simpl; exact Hbody.
    + exact Hr.
    + unfold sugar.guard_bool.dtor, noexcept_; simpl.
      rewrite orb_true_r; reflexivity.
  - unfold IMGUI_SUGAR_SCOPED_BOOL, if_; simpl.
    eapply decl_in_run.
    + apply BooleanGuard_init; exact Hb.
    + simpl; exact Hbody.
    + exact Hr.
    + unfold ImGuiSugar.BooleanGuard.dtor, noexcept_; simpl.
      rewrite orb_true_r; reflexivity.
  - apply count_calls_last.
Qed.

Lemma scoped_bool_true_body_then_end_once_witness :
  DSL.with_Combo (stub true) [VStr "combo"; VStr "preview"]
                 (text "item" ;; throw_ "boom") []
  = (Throw "boom",
     [mkCall "BeginCombo" [VStr "combo"; VStr "preview"];
      mkCall "Text" [VStr "item"];
      mkCall "EndCombo" []]).
Proof.
  refine (proj1 (@scoped_bool_true_body_then_end_once
                   (stub true) "BeginCombo" "EndCombo" false
                   [VStr "combo"; VStr "preview"]
                   (text "item" ;; throw_ "boom") []
                   (Throw "boom") _ eq_refl eq_refl _)).
  discriminate.
Defined.

(** C2. With the conditional release policy ([AlwaysCallEnd = false]), when
    the begin function returns [false] the construct leaves the log as the
    begin call left it: the body did not run and the end function was not
    called.  At the level of the guard, the destructor of a guard holding
    [false] does nothing, whatever its end function is. *)
Theorem conditional_release_false_skips_body_and_end :
  forall (lib : Library) (BEGIN END : string) (va_args : list Value)
         (body : M unit) (end_ : M unit) (w : World),
    lib BEGIN va_args w = Ok false ->
    _SUGAR_SCOPED_BOOL lib BEGIN END false va_args body w
      = (Normal tt, w ++ [mkCall BEGIN va_args])
    /\ IMGUI_SUGAR_SCOPED_BOOL lib BEGIN END false va_args body w
      = (Normal tt, w ++ [mkCall BEGIN va_args])
    /\ sugar.guard_bool.dtor (sugar.guard_bool.mk (AlwaysCallEnd := false) false end_) w
      = (Normal tt, w)
    /\ ImGuiSugar.BooleanGuard.dtor
         (ImGuiSugar.BooleanGuard.mk (AlwaysCallEnd := false) false end_) w
      = (Normal tt, w)
    /\ sugar.guard_bool.operator_bool
         (sugar.guard_bool.mk (AlwaysCallEnd := false) false end_) = false
    /\ ImGuiSugar.BooleanGuard.operator_bool
         (ImGuiSugar.BooleanGuard.mk (AlwaysCallEnd := false) false end_) = false.
Proof.
  intros lib BEGIN END va_args body end_ w Hb.
  repeat split.
  - unfold _SUGAR_SCOPED_BOOL, if_; simpl.
    eapply decl_in_run.
    + apply guard_bool_init; exact Hb.
    + simpl; reflexivity.
    + discriminate.
    + reflexivity.
  - unfold IMGUI_SUGAR_SCOPED_BOOL, if_; simpl.
    eapply decl_in_run.
    + apply BooleanGuard_init; exact Hb.
    + simpl; reflexivity.
    + discriminate.
    + reflexivity.
Qed.

Lemma conditional_release_false_skips_body_and_end_witness :
  DSL.with_Popup (stub false) [VStr "popup"] (text "never") []
  = (Normal tt, [mkCall "BeginPopup" [VStr "popup"]]).
Proof.
  exact (proj1 (@conditional_release_false_skips_body_and_end
                  (stub false) "BeginPopup" "EndPopup" [VStr "popup"]
                  (text "never") (ret tt) [] eq_refl)).
Defined.

(** C3. With the always release policy ([AlwaysCallEnd = true]), when the
    begin function returns [false] the body does not run and the end
    function is called once: the log is the begin call followed by the end
    call.  At the level of the guard, the destructor of a guard holding
    [false] runs its end function once, as a [noexcept] call. *)
Theorem always_release_false_skips_body_calls_end_once :
  forall (lib : Library) (BEGIN END : string) (va_args : list Value)
         (body : M unit) (end_ : M unit) (w : World),
    lib BEGIN va_args w = Ok false ->
    _SUGAR_SCOPED_BOOL lib BEGIN END true va_args body w
      = (Normal tt, w ++ [mkCall BEGIN va_args] ++ [mkCall END []])
    /\ IMGUI_SUGAR_SCOPED_BOOL lib BEGIN END true va_args body w
      = (Normal tt, w ++ [mkCall BEGIN va_args] ++ [mkCall END []])
    /\ sugar.guard_bool.dtor (sugar.guard_bool.mk (AlwaysCallEnd := true) false end_) w
      = noexcept_ end_ w
    /\ ImGuiSugar.BooleanGuard.dtor
         (ImGuiSugar.BooleanGuard.mk (AlwaysCallEnd := true) false end_) w
      = noexcept_ end_ w
    /\ sugar.guard_bool.dtor
         (sugar.guard_bool.mk (AlwaysCallEnd := true) false (ImGui.call_end END [])) w
      = (Normal tt, w ++ [mkCall END []])
    /\ ImGuiSugar.BooleanGuard.dtor
         (ImGuiSugar.BooleanGuard.mk (AlwaysCallEnd := true) false
                                     (ImGui.call_end END [])) w
      = (Normal tt, w ++ [mkCall END []])
    /\ count_calls END (w ++ [mkCall END []]) = count_calls END w + 1.
Proof.
  intros lib BEGIN END va_args body end_ w Hb.
  repeat split.
  - unfold _SUGAR_SCOPED_BOOL, if_; simpl.
    eapply decl_in_run.
    + apply guard_bool_init; exact Hb.
    + simpl; reflexivity.
    + discriminate.
    + unfold sugar.guard_bool.dtor, noexcept_, ImGui.call_end; simpl.
      rewrite <- app_assoc; reflexivity.
  - unfold IMGUI_SUGAR_SCOPED_BOOL, if_; simpl.
    eapply decl_in_run.
    + apply BooleanGuard_init; exact Hb.
    + simpl; reflexivity.
    + discriminate.
    + unfold ImGuiSugar.BooleanGuard.dtor, noexcept_, ImGui.call_end; simpl.
      rewrite <- app_assoc; reflexivity.
  - apply count_calls_last.
Qed.

Lemma always_release_false_skips_body_calls_end_once_witness :
  DSL.with_Window (stub false) [VStr "window"] (text "never") []
  = (Normal tt, [mkCall "Begin" [VStr "window"]; mkCall "End" []]).
Proof.
  exact (proj1 (@always_release_false_skips_body_calls_end_once
                  (stub false) "Begin" "End" [VStr "window"]
                  (text "never") (ret tt) [] eq_refl)).
Defined.

(* ------------------------------------------------------------------------ *)
(** ** The void guard                                                        *)
(* ------------------------------------------------------------------------ *)

Lemma guard_void_ctor_log :
  forall Args (begin : Args -> M unit) (end_ : M unit) (a : Args) (w : World),
    snd (sugar.guard_void.ctor begin end_ a w) = snd (begin a w).
Proof.
  intros Args begin end_ a w.
  unfold sugar.guard_void.ctor, noexcept_, bind, ret.
  destruct (begin a w) as [[u | e | | | |] w1]; reflexivity.
Qed.

(** C4. For [sugar::guard_void] over any argument pack: the constructor
    makes one call of the begin function on the forwarded arguments (it does
    to the log what that call does, and when the call returns the guard
    exists and holds the end function; the begin function returns [void], so
    there is no value to keep); the conversion to [bool] is [true] for every
    guard, so that a body guarded by it runs; the destructor is one [noexcept] call of the stored end function,
    under no condition.  With library functions for begin and end, the log
    gains the begin call with the arguments given and, at destruction, one
    end call. *)
Theorem guard_void_begin_once_true_end_once :
  forall (Args : Type) (begin : Args -> M unit) (end_ : M unit) (a : Args)
         (g : sugar.guard_void.t Args) (w w1 : World)
         (lib : Library) (BEGIN END : string) (va_args : list Value)
         (body : M unit),
    begin a w = (Normal tt, w1) ->
    sugar.guard_void.ctor begin end_ a w = (Normal (sugar.guard_void.mk end_), w1)
    /\ if_ (mkDecl (sugar.guard_void.ctor begin end_ a)
                   sugar.guard_void.dtor sugar.guard_void.operator_bool)
           body w
       = scope_exit body (noexcept_ end_) w1
    /\ snd (sugar.guard_void.ctor begin end_ a w) = snd (begin a w)
    /\ snd (sugar.guard_void.ctor (ImGui.call_void lib BEGIN)
                                  (ImGui.call_end END []) va_args w)
       = w ++ [mkCall BEGIN va_args]
    /\ sugar.guard_void.operator_bool g = true
    /\ sugar.guard_void.dtor g w = noexcept_ (sugar.guard_void._end g) w
    /\ sugar.guard_void.dtor
         (sugar.guard_void.mk (Args := Args) (ImGui.call_end END [])) w
       = (Normal tt, w ++ [mkCall END []])
    /\ count_calls END (w ++ [mkCall END []]) = count_calls END w + 1.
Proof.
  intros Args begin end_ a g w w1 lib BEGIN END va_args body Hb.
  assert (Hc : sugar.guard_void.ctor begin end_ a w
               = (Normal (sugar.guard_void.mk end_), w1)).
  { unfold sugar.guard_void.ctor, noexcept_, bind; rewrite Hb; reflexivity. }
  split; [|split; [|split; [|split; [|split; [|split; [|split]]]]]].
  - exact Hc.
  - unfold if_, decl_in; simpl.
    erewrite bind_normal by exact Hc; reflexivity.
  - apply guard_void_ctor_log.
  - rewrite guard_void_ctor_log; unfold ImGui.call_void.
    destruct (lib BEGIN va_args w); reflexivity.
  - reflexivity.
  - reflexivity.
  - reflexivity.
  - apply count_calls_last.
Qed.

Lemma guard_void_begin_once_true_end_once_witness :
  sugar.guard_void.ctor (ImGui.call_void (stub true) "PushID")
                        (ImGui.call_end "PopID" []) [VInt 7] []
  = (Normal (sugar.guard_void.mk (ImGui.call_end "PopID" [])),
     [mkCall "PushID" [VInt 7]]).
Proof.
  exact (proj1 (@guard_void_begin_once_true_end_once
                  (list Value) (ImGui.call_void (stub true) "PushID")
                  (ImGui.call_end "PopID" []) [VInt 7]
                  (sugar.guard_void.mk (ImGui.call_end "PopID" []))
                  [] [mkCall "PushID" [VInt 7]]
                  (stub true) "PushID" "PopID" [VInt 7] (ret tt) eq_refl)).
Defined.

(* ------------------------------------------------------------------------ *)
(** ** Nesting                                                               *)
(* ------------------------------------------------------------------------ *)

Lemma if_true_run :
  forall (d : declaration) (body : M unit) w (g : decl_type d) w1 r w2 w3,
    decl_init d w = (Normal g, w1) ->
    decl_bool d g = true ->
    body w1 = (r, w2) ->
    r <> Terminate ->
    decl_dtor d g w2 = (Normal tt, w3) ->
    if_ d body w = (r, w3).
Proof.
  intros d body w g w1 r w2 w3 Hi Hc Hb Hr Hd; unfold if_.
  eapply decl_in_run; try eassumption.
  rewrite Hc; exact Hb.
Qed.

Lemma acquires_reply :
  forall lib c w,
    acquires lib c w = true ->
    exists b, lib (fn (begin_call c)) (args (begin_call c)) w = Ok b
              /\ (forall B E A a, c = ScopedBool B E A a -> b = true).
Proof.
  intros lib c w H; destruct c; simpl in *.
  - destruct (lib BEGIN va_args w) as [[|]|]; try discriminate.
    exists true; split; [reflexivity | intros; reflexivity].
  - destruct (lib BEGIN va_args w) as [b|]; try discriminate.
    exists b; split; [reflexivity | intros; discriminate].
  - destruct (lib "PushStyleColor" (ITEM :: va_args) w) as [b|]; try discriminate.
    exists b; split; [reflexivity | intros; discriminate].
  - destruct (lib "PushStyleVar" (ITEM :: va_args) w) as [b|]; try discriminate.
    exists b; split; [reflexivity | intros; discriminate].
Qed.

(** One acquired construct: begin call, body, end call. *)
Lemma expand_run :
  forall lib c body w r w2,
    acquires lib c w = true ->
    body (w ++ [begin_call c]) = (r, w2) ->
    r <> Terminate ->
    expand lib c body w = (r, w2 ++ [end_call c]).
Proof.
  intros lib c body w r w2 Ha Hb Hr.
  destruct (acquires_reply lib c w Ha) as [b [Hl Ht]].
  destruct c; simpl in *.
  - rewrite (Ht _ _ _ _ eq_refl) in Hl.
    unfold _SUGAR_SCOPED_BOOL.
    eapply if_true_run; simpl.
    + apply guard_bool_init; exact Hl.
    + reflexivity.
    + exact Hb.
    + exact Hr.
    + unfold sugar.guard_bool.dtor, noexcept_; simpl.
      rewrite orb_true_r; reflexivity.
  - unfold _SUGAR_SCOPED_VOID_N.
    eapply if_true_run; simpl.
    + eapply guard_void_init; exact Hl.
    + reflexivity.
    + exact Hb.
    + exact Hr.
    + reflexivity.
  - unfold DSL.with_StyleColor, DSL.set_StyleColor.
    eapply if_true_run; simpl.
    + eapply guard_void_init; exact Hl.
    + reflexivity.
    + exact Hb.
    + exact Hr.
    + reflexivity.
  - unfold DSL.with_StyleVar, DSL.set_StyleVar.
    eapply if_true_run; simpl.
    + eapply guard_void_init; exact Hl.
    + reflexivity.
    + exact Hb.
    + exact Hr.
    + reflexivity.
Qed.

Lemma expand11_run :
  forall lib c body w r w2,
    acquires lib c w = true ->
    body (w ++ [begin_call c]) = (r, w2) ->
    r <> Terminate ->
    expand11 lib c body w = (r, w2 ++ [end_call c]).
Proof.
  intros lib c body w r w2 Ha Hb Hr.
  destruct (acquires_reply lib c w Ha) as [b [Hl Ht]].
  destruct c; simpl in *.
  - rewrite (Ht _ _ _ _ eq_refl) in Hl.
    unfold IMGUI_SUGAR_SCOPED_BOOL.
    eapply if_true_run; simpl.
    + apply BooleanGuard_init; exact Hl.
    + reflexivity.
    + exact Hb.
    + exact Hr.
    + unfold ImGuiSugar.BooleanGuard.dtor, noexcept_; simpl.
      rewrite orb_true_r; reflexivity.
  - unfold IMGUI_SUGAR_SCOPED_VOID_N.
    eapply if_true_run; simpl.
    + eapply ES_guard_init; exact Hl.
    + reflexivity.
    + exact Hb.
    + exact Hr.
    + reflexivity.
  - unfold DSL11.with_StyleColor.
    eapply if_true_run; simpl.
    + eapply ES_guard_init; exact Hl.
    + reflexivity.
    + exact Hb.
    + exact Hr.
    + reflexivity.
  - unfold DSL11.with_StyleVar.
    eapply if_true_run; simpl.
    + eapply ES_guard_init; exact Hl.
    + reflexivity.
    + exact Hb.
    + exact Hr.
    + reflexivity.
Qed.

(** Any depth of nesting: the begin calls in order, the body, the end calls
    in reverse order. *)
Lemma nest_releases_in_reverse :
  forall lib cs body w r w2,
    acquired lib cs w = true ->
    body (w ++ map begin_call cs) = (r, w2) ->
    r <> Terminate ->
    nest lib cs body w = (r, w2 ++ rev (map end_call cs)).
Proof.
  intros lib cs body; induction cs as [|c cs IH]; intros w r w2 Ha Hb Hr.
  - simpl in *; rewrite !app_nil_r in *; exact Hb.
  - simpl in Ha; apply andb_true_iff in Ha; destruct Ha as [Hc Hcs].
    simpl; rewrite app_assoc.
    apply expand_run; [exact Hc | | exact Hr].
    apply IH; [exact Hcs | | exact Hr].
    rewrite <- app_assoc; exact Hb.
Qed.

Lemma nest11_releases_in_reverse :
  forall lib cs body w r w2,
    acquired lib cs w = true ->
    body (w ++ map begin_call cs) = (r, w2) ->
    r <> Terminate ->
    nest11 lib cs body w = (r, w2 ++ rev (map end_call cs)).
Proof.
  intros lib cs body; induction cs as [|c cs IH]; intros w r w2 Ha Hb Hr.
  - simpl in *; rewrite !app_nil_r in *; exact Hb.
  - simpl in Ha; apply andb_true_iff in Ha; destruct Ha as [Hc Hcs].
    simpl; rewrite app_assoc.
    apply expand11_run; [exact Hc | | exact Hr].
    apply IH; [exact Hcs | | exact Hr].
    rewrite <- app_assoc; exact Hb.
Qed.

(** C5. Three self scoped constructs nested A, B, C, each acquired in turn:
    after the body, the end functions are called in the order C, B, A, and
    the whole completes the way the body did.  This holds for every
    completion of the innermost body short of [std::terminate], so for
    normal exit and for an exception thrown there, in both variants of the
    header. *)
Theorem nested_constructs_release_in_reverse_order :
  forall (lib : Library) (A B C : self_scoped) (body : M unit)
         (w : World) (r : outcome unit) (w2 : World),
    acquired lib [A; B; C] w = true ->
    body (w ++ [begin_call A; begin_call B; begin_call C]) = (r, w2) ->
    r <> Terminate ->
    expand lib A (expand lib B (expand lib C body)) w
      = (r, w2 ++ [end_call C; end_call B; end_call A])
    /\ expand11 lib A (expand11 lib B (expand11 lib C body)) w
      = (r, w2 ++ [end_call C; end_call B; end_call A]).
Proof.
  intros lib A B C body w r w2 Ha Hb Hr; split.
  - exact (nest_releases_in_reverse lib [A; B; C] body w Ha Hb Hr).
  - exact (nest11_releases_in_reverse lib [A; B; C] body w Ha Hb Hr).
Qed.

Lemma nested_constructs_release_in_reverse_order_witness :
  DSL.with_Window (stub true) [VStr "A"]
    (DSL.with_Group (stub true)
       (DSL.with_TreeNode (stub true) [VStr "C"]
          (text "leaf" ;; throw_ "boom"))) []
  = (Throw "boom",
     [mkCall "Begin" [VStr "A"]; mkCall "BeginGroup" [];
      mkCall "TreeNode" [VStr "C"]; mkCall "Text" [VStr "leaf"];
      mkCall "TreePop" []; mkCall "EndGroup" []; mkCall "End" []]).
Proof.
  refine (proj1 (@nested_constructs_release_in_reverse_order
                   (stub true)
                   (ScopedBool "Begin" "End" true [VStr "A"])
                   (ScopedVoid "BeginGroup" "EndGroup" [])
                   (ScopedBool "TreeNode" "TreePop" false [VStr "C"])
                   (text "leaf" ;; throw_ "boom") []
                   (Throw "boom") _ eq_refl eq_refl _)).
  discriminate.
Defined.

(* ------------------------------------------------------------------------ *)
(** ** Parent scoped constructs                                              *)
(* ------------------------------------------------------------------------ *)

Lemma run_block_after_stmts :
  forall (pre : list (M unit)) (rest : list item) w w1,
    run_block (map Stmt pre) w = (Normal tt, w1) ->
    run_block (map Stmt pre ++ rest) w = run_block rest w1.
Proof.
  induction pre as [|s pre IH]; intros rest w w1 H; simpl in *.
  - unfold ret in H; inversion H; reflexivity.
  - unfold bind in *.
    destruct (s w) as [[u | e | | | |] w'] eqn:Hs; try discriminate.
    apply IH; exact H.
Qed.

Lemma run_block_decl :
  forall (d : declaration) (rest : list item) w (g : decl_type d) w1 r w2 w3,
    decl_init d w = (Normal g, w1) ->
    run_block rest w1 = (r, w2) ->
    r <> Terminate ->
    decl_dtor d g w2 = (Normal tt, w3) ->
    run_block (Decl d :: rest) w = (r, w3).
Proof.
  intros d rest w g w1 r w2 w3 Hi Hr Hn Hd; simpl.
  eapply decl_in_run; eassumption.
Qed.

(** The self scoped form of the same entry, for contrast: its end function
    is called right after the statement that follows the construct. *)
Example self_scoped_end_after_next_statement :
  run_block [Stmt (text "before");
             Stmt (DSL.with_ID (stub true) [VInt 1] (text "first"));
             Stmt (text "second")] []
  = (Normal tt,
     [mkCall "Text" [VStr "before"]; mkCall "PushID" [VInt 1];
      mkCall "Text" [VStr "first"]; mkCall "PopID" [];
      mkCall "Text" [VStr "second"]]).
Proof. reflexivity. Qed.

(* ------------------------------------------------------------------------ *)
(** ** The overloaded push functions                                         *)
(* ------------------------------------------------------------------------ *)

Import Overloads.

(** C7. [set_StyleColor] constructs its guard with the [ImU32] overload of
    [PushStyleColor] exactly when the type of the trailing argument is
    integral, and with the [const ImVec4&] overload exactly when it is not;
    [set_StyleVar] constructs its guard with the [float] overload of
    [PushStyleVar] exactly when that type is arithmetic, and with the
    [const ImVec2&] overload exactly when it is not.  The choice is a
    function of the type alone: two arguments of one type select the same
    overload whatever their values. *)
Theorem style_overload_selected_by_argument_type :
  forall (T : CType) (v1 v2 : Value),
    (set_StyleColor_begin (mkExpr T v1) = Some PushStyleColor_ImU32
       <-> is_integral T = true)
    /\ (set_StyleColor_begin (mkExpr T v1) = Some PushStyleColor_ImVec4
       <-> is_integral T = false)
    /\ (set_StyleVar_begin (mkExpr T v1) = Some PushStyleVar_float
       <-> is_arithmetic T = true)
    /\ (set_StyleVar_begin (mkExpr T v1) = Some PushStyleVar_ImVec2
       <-> is_arithmetic T = false)
    /\ set_StyleColor_begin (mkExpr T v1) = set_StyleColor_begin (mkExpr T v2)
    /\ set_StyleVar_begin (mkExpr T v1) = set_StyleVar_begin (mkExpr T v2).
Proof.
  intros T v1 v2.
  unfold set_StyleColor_begin, set_StyleVar_begin,
         set_StyleColor_Args, set_StyleVar_Args; simpl decltype.
  destruct (is_integral T) eqn:Hi; destruct (is_arithmetic T) eqn:Ha;
    vm_compute; repeat split; intros; congruence.
Qed.

(** At least one integral and one non-integral case per overloaded entry.
    The last two are arguments whose type is not integral without being a
    vector, a reference to [ImU32] and a [float]: the trait sends them to
    the [const ImVec4&] overload. *)
Example style_overload_cases :
  set_StyleColor_begin (mkExpr TInt (VInt 4278190080))
    = Some PushStyleColor_ImU32
  /\ set_StyleColor_begin (mkExpr ImVec4 (VVec4 0 1 0 1))
    = Some PushStyleColor_ImVec4
  /\ set_StyleColor_begin (mkExpr (TConst ImU32) (VU32 255))
    = Some PushStyleColor_ImU32
  /\ set_StyleVar_begin (mkExpr TFloat (VFloat 1 (-1)))
    = Some PushStyleVar_float
  /\ set_StyleVar_begin (mkExpr TInt (VInt 2))
    = Some PushStyleVar_float
  /\ set_StyleVar_begin (mkExpr ImVec2 (VVec2 4 4))
    = Some PushStyleVar_ImVec2
  /\ set_StyleColor_begin (mkExpr (TLRef ImU32) (VU32 255))
    = Some PushStyleColor_ImVec4
  /\ set_StyleColor_begin (mkExpr TFloat (VFloat 1 0))
    = Some PushStyleColor_ImVec4.
Proof. repeat split. Qed.

(* ------------------------------------------------------------------------ *)
(** ** Ownership of the release                                              *)
(* ------------------------------------------------------------------------ *)




(* ------------------------------------------------------------------------ *)
(** ** The two implementations of the void entries                           *)
(* ------------------------------------------------------------------------ *)

Lemma scope_exit_call_end :
  forall (body : M unit) f a w1,
    scope_exit body (noexcept_ (ImGui.call_end f a)) w1
    = then_release body (mkCall f a) w1.
Proof.
  intros body f a w1; unfold scope_exit, then_release, noexcept_, ImGui.call_end.
  destruct (body w1) as [[u | e | | | |] w2]; reflexivity.
Qed.

Lemma void_entries_when_begin_returns :
  forall lib BEGIN END va_args (body : M unit) (rest : list item) w b,
    lib BEGIN va_args w = Ok b ->
    _SUGAR_SCOPED_VOID_N lib BEGIN END va_args body w
      = then_release body (mkCall END []) (w ++ [mkCall BEGIN va_args])
    /\ IMGUI_SUGAR_SCOPED_VOID_N lib BEGIN END va_args body w
      = then_release body (mkCall END []) (w ++ [mkCall BEGIN va_args])
    /\ run_block
         (Decl (_SUGAR_PARENT_SCOPED_VOID_N lib BEGIN END va_args) :: rest) w
      = then_release (run_block rest) (mkCall END [])
                     (w ++ [mkCall BEGIN va_args])
    /\ run_block
         (Decl (IMGUI_SUGAR_PARENT_SCOPED_VOID_N lib BEGIN END va_args)
          :: rest) w
      = then_release (run_block rest) (mkCall END [])
                     (w ++ [mkCall BEGIN va_args]).
Proof.
  intros lib BEGIN END va_args body rest w b Hb.
  unfold _SUGAR_SCOPED_VOID_N, IMGUI_SUGAR_SCOPED_VOID_N,
         _SUGAR_PARENT_SCOPED_VOID_N, IMGUI_SUGAR_PARENT_SCOPED_VOID_N, if_.
  simpl run_block; unfold decl_in; simpl decl_init.
  repeat split.
  - erewrite bind_normal by (eapply guard_void_init; exact Hb).
    apply scope_exit_call_end.
  - erewrite bind_normal by (eapply ES_guard_init; exact Hb).
    apply scope_exit_call_end.
  - erewrite bind_normal by (eapply guard_void_init; exact Hb).
    apply scope_exit_call_end.
  - erewrite bind_normal by (eapply ES_guard_init; exact Hb).
    apply scope_exit_call_end.
Qed.

Lemma void_entries_when_begin_throws :
  forall lib BEGIN END va_args (body : M unit) (rest : list item) w e,
    lib BEGIN va_args w = Raise e ->
    _SUGAR_SCOPED_VOID_N lib BEGIN END va_args body w
      = (Terminate, w ++ [mkCall BEGIN va_args])
    /\ IMGUI_SUGAR_SCOPED_VOID_N lib BEGIN END va_args body w
      = (Throw e, w ++ [mkCall BEGIN va_args])
    /\ run_block
         (Decl (_SUGAR_PARENT_SCOPED_VOID_N lib BEGIN END va_args) :: rest) w
      = (Terminate, w ++ [mkCall BEGIN va_args])
    /\ run_block
         (Decl (IMGUI_SUGAR_PARENT_SCOPED_VOID_N lib BEGIN END va_args)
          :: rest) w
      = (Throw e, w ++ [mkCall BEGIN va_args]).
Proof.
  intros lib BEGIN END va_args body rest w e He.
  unfold _SUGAR_SCOPED_VOID_N, IMGUI_SUGAR_SCOPED_VOID_N,
         _SUGAR_PARENT_SCOPED_VOID_N, IMGUI_SUGAR_PARENT_SCOPED_VOID_N, if_.
  simpl run_block; simpl decl_init.
  unfold decl_in, sugar.guard_void.ctor, IMGUI_SUGAR_ES, noexcept_, bind,
         ImGui.call_void.
  rewrite He; repeat split.
Qed.

(** The two implementations on one entry, with a body that returns early. *)
Example void_entry_implementations_on_with_Font :
  DSL.with_Font (stub true) [VPtr 64] (text "bold" ;; return_) []
  = (Return_, [mkCall "PushFont" [VPtr 64]; mkCall "Text" [VStr "bold"];
               mkCall "PopFont" []])
  /\ DSL11.with_Font (stub true) [VPtr 64] (text "bold" ;; return_) []
  = (Return_, [mkCall "PushFont" [VPtr 64]; mkCall "Text" [VStr "bold"];
               mkCall "PopFont" []])
  /\ DSL.with_Font failing_stub [VPtr 64] (text "bold") []
  = (Terminate, [mkCall "PushFont" [VPtr 64]])
  /\ DSL11.with_Font failing_stub [VPtr 64] (text "bold") []
  = (Throw "failed", [mkCall "PushFont" [VPtr 64]]).
Proof. repeat split. Qed.

(* ------------------------------------------------------------------------ *)
(** ** The style entries                                                     *)
(* ------------------------------------------------------------------------ *)

Lemma style_stack_last :
  forall push pop w c,
    ImGui.style_stack push pop (w ++ [c])
    = ImGui.style_step push pop (ImGui.style_stack push pop w) c.
Proof.
  intros push pop w c; unfold ImGui.style_stack.
  rewrite fold_left_app; reflexivity.
Qed.

Lemma stack_of_push :
  forall k a w, stack_of k (w ++ [mkCall (push_fn k) a]) = a :: stack_of k w.
Proof.
  intros k a w; destruct k; simpl;
    unfold ImGui.color_stack, ImGui.var_stack;
    rewrite style_stack_last; reflexivity.
Qed.

Lemma stack_of_pop_one :
  forall k w,
    stack_of k (w ++ [mkCall (pop_fn k) [VInt 1]]) = tl (stack_of k w).
Proof.
  intros k w; destruct k; simpl;
    unfold ImGui.color_stack, ImGui.var_stack;
    rewrite style_stack_last; unfold ImGui.style_step; simpl;
    match goal with
    | |- context [ImGui.style_stack ?p ?q w] =>
        destruct (ImGui.style_stack p q w); reflexivity
    end.
Qed.

Lemma run_block_single :
  forall (body : M unit) w, run_block [Stmt body] w = body w.
Proof.
  intros body w; simpl; unfold bind, ret.
  destruct (body w) as [[[] | e | | | |] w1]; reflexivity.
Qed.

(** C10. The pop wrappers of both variants call [ImGui::PopStyleColor(1)]
    and [ImGui::PopStyleVar(1)].  So for [set_StyleColor], [set_StyleVar],
    [with_StyleColor] and [with_StyleVar], in both variants, when the push
    returns: the push function is called once with the item and the value,
    which puts one entry on the style stack; the body (or the rest of the
    block) runs; and the release is one call of the pop function with
    count 1, which takes one entry off the stack. *)
Theorem style_constructs_push_one_pop_one :
  forall (lib : Library) (k : style) (ITEM : Value) (va_args : list Value)
         (body : M unit) (w : World) (b : bool) (r : outcome unit) (w2 : World),
    lib (push_fn k) (ITEM :: va_args) w = Ok b ->
    body (w ++ [mkCall (push_fn k) (ITEM :: va_args)]) = (r, w2) ->
    r <> Terminate ->
    (sugar.PopStyleColor w = ImGui.call_end "PopStyleColor" [VInt 1] w
     /\ sugar.PopStyleVar w = ImGui.call_end "PopStyleVar" [VInt 1] w
     /\ ImGuiSugar.PopStyleColor w = ImGui.call_end "PopStyleColor" [VInt 1] w
     /\ ImGuiSugar.PopStyleVar w = ImGui.call_end "PopStyleVar" [VInt 1] w)
    /\ with_Style lib k ITEM va_args body w
       = (r, w2 ++ [mkCall (pop_fn k) [VInt 1]])
    /\ with_Style11 lib k (ITEM :: va_args) body w
       = (r, w2 ++ [mkCall (pop_fn k) [VInt 1]])
    /\ run_block [Decl (set_Style lib k ITEM va_args); Stmt body] w
       = (r, w2 ++ [mkCall (pop_fn k) [VInt 1]])
    /\ run_block [Decl (set_Style11 lib k (ITEM :: va_args)); Stmt body] w
       = (r, w2 ++ [mkCall (pop_fn k) [VInt 1]])
    /\ stack_of k (w ++ [mkCall (push_fn k) (ITEM :: va_args)])
       = (ITEM :: va_args) :: stack_of k w
    /\ stack_of k (w2 ++ [mkCall (pop_fn k) [VInt 1]]) = tl (stack_of k w2).
Proof.
  intros lib k ITEM va_args body w b r w2 Hb Hbody Hr.
  split; [repeat split|].
  split; [|split; [|split; [|split; [|split]]]].
  - destruct k; simpl in *;
      unfold DSL.with_StyleColor, DSL.with_StyleVar,
             DSL.set_StyleColor, DSL.set_StyleVar;
      (eapply if_true_run; simpl;
       [eapply guard_void_init; exact Hb | reflexivity | exact Hbody
       | exact Hr | reflexivity]).
  - destruct k; simpl in *;
      unfold DSL11.with_StyleColor, DSL11.with_StyleVar;
      (eapply if_true_run; simpl;
       [eapply ES_guard_init; exact Hb | reflexivity | exact Hbody
       | exact Hr | reflexivity]).
  - destruct k; simpl in Hb, Hbody; simpl set_Style; simpl pop_fn;
      (eapply run_block_decl; simpl decl_init; simpl decl_dtor;
       [eapply guard_void_init; exact Hb
       | rewrite run_block_single; exact Hbody
       | exact Hr | reflexivity]).
  - destruct k; simpl in Hb, Hbody; simpl set_Style11; simpl pop_fn;
      (eapply run_block_decl; simpl decl_init; simpl decl_dtor;
       [eapply ES_guard_init; exact Hb
       | rewrite run_block_single; exact Hbody
       | exact Hr | reflexivity]).
  - apply stack_of_push.
  - apply stack_of_pop_one.
Qed.

Lemma style_constructs_push_one_pop_one_witness :
  with_Style (stub true) StyleColor (VInt 0) [VU32 4278190080] (text "red") []
  = (Normal tt,
     [mkCall "PushStyleColor" [VInt 0; VU32 4278190080];
      mkCall "Text" [VStr "red"];
      mkCall "PopStyleColor" [VInt 1]]).
Proof.
  refine (proj1 (proj2 (@style_constructs_push_one_pop_one
                   (stub true) StyleColor (VInt 0) [VU32 4278190080]
                   (text "red") [] true (Normal tt) _ eq_refl eq_refl _))).
  discriminate.
Defined.

(** The entries of the README example that push a style: the stack is back
    to what it was when the block is left. *)
Example style_stack_balanced :
  let w := snd (run_block
                  [Decl (DSL.set_StyleColor (stub true) (VInt 2) [VVec4 88 88 88 100]);
                   Decl (DSL.set_StyleColor (stub true) (VInt 0) [VU32 4278190080]);
                   Stmt (DSL.with_Window (stub true) [VStr "Test Window"]
                           (text "Hello"))] []) in
  ImGui.color_stack w = []
  /\ count_calls "PushStyleColor" w = 2
  /\ count_calls "PopStyleColor" w = 2.
Proof. repeat split. Qed.

(* ======================================================================== *)
(** * Further properties of the constructs                                   *)
(* ======================================================================== *)

(** ** The boolean entries across the two variants *)

(** Unfold a boolean construct of either variant down to the monad. *)
Ltac unfold_bool_construct :=
  unfold DSL.with_DragDropTarget, DSL.with_MainMenuBar, DSL.with_MenuBar,
         DSL.with_DragDropTargetArgs, DSL.with_MainMenuBarArgs,
         DSL.with_MenuBarArgs,
         DSL11.with_DragDropTarget, DSL11.with_MainMenuBar, DSL11.with_MenuBar,
         IMGUI_SUGAR_SCOPED_BOOL_0,
         _SUGAR_SCOPED_BOOL, IMGUI_SUGAR_SCOPED_BOOL, if_, decl_in,
         sugar.guard_bool.ctor, sugar.guard_bool.dtor,
         sugar.guard_bool.operator_bool,
         ImGuiSugar.BooleanGuard.ctor, ImGuiSugar.BooleanGuard.dtor,
         ImGuiSugar.BooleanGuard.operator_bool,
         scope_exit, noexcept_, bind, ret,
         ImGui.call_bool, ImGui.call_end;
  simpl.

Lemma scoped_bool_variants_agree :
  forall lib BEGIN END ALWAYS va_args body w,
    _SUGAR_SCOPED_BOOL lib BEGIN END ALWAYS va_args body w
    = IMGUI_SUGAR_SCOPED_BOOL lib BEGIN END ALWAYS va_args body w.
Proof.
  intros lib BEGIN END ALWAYS va_args body w; unfold_bool_construct.
  destruct (lib BEGIN va_args w) as [[|] | e]; reflexivity.
Qed.

(** X1. The boolean entries of [imgui_sugar.hpp] and of the C++11 variant
    are the same statement: for every library, entry, policy, argument
    list, body and starting log they complete the same way and leave the
    same log, also when the begin function throws or the body ends the
    program.  The three entries without arguments, written
    [with_XArgs()] in one file and with [IMGUI_SUGAR_SCOPED_BOOL_0] in the
    other, agree as well. *)
Theorem bool_entries_agree_across_variants :
  forall (lib : Library) (BEGIN END : string) (ALWAYS : bool)
         (va_args : list Value) (body : M unit) (w : World),
    _SUGAR_SCOPED_BOOL lib BEGIN END ALWAYS va_args body w
      = IMGUI_SUGAR_SCOPED_BOOL lib BEGIN END ALWAYS va_args body w
    /\ DSL.with_DragDropTarget lib body w = DSL11.with_DragDropTarget lib body w
    /\ DSL.with_MainMenuBar lib body w = DSL11.with_MainMenuBar lib body w
    /\ DSL.with_MenuBar lib body w = DSL11.with_MenuBar lib body w.
Proof.
  intros lib BEGIN END ALWAYS va_args body w.
  split; [apply scoped_bool_variants_agree|].
  repeat split; apply scoped_bool_variants_agree.
Qed.

(** ** A begin function that fails or returns [false] *)

Lemma scoped_bool_begin_throws :
  forall lib BEGIN END ALWAYS va_args body w e,
    lib BEGIN va_args w = Raise e ->
    _SUGAR_SCOPED_BOOL lib BEGIN END ALWAYS va_args body w
    = (Throw e, w ++ [mkCall BEGIN va_args]).
Proof.
  intros lib BEGIN END ALWAYS va_args body w e He; unfold_bool_construct.
  rewrite He; reflexivity.
Qed.

Lemma scoped_bool_begin_false :
  forall lib BEGIN END ALWAYS va_args body w,
    lib BEGIN va_args w = Ok false ->
    _SUGAR_SCOPED_BOOL lib BEGIN END ALWAYS va_args body w
    = (Normal tt,
       w ++ [mkCall BEGIN va_args] ++ (if ALWAYS then [mkCall END []] else [])).
Proof.
  intros lib BEGIN END ALWAYS va_args body w Hf; unfold_bool_construct.
  rewrite Hf; destruct ALWAYS; simpl.
  - rewrite <- app_assoc; reflexivity.
  - reflexivity.
Qed.

(** X2. When the begin function of a boolean entry throws, with either
    release policy and in both variants: the exception leaves the construct,
    the body does not run, and the end function is not called, since no
    guard was constructed.  The log is the begin call and nothing more. *)
Theorem bool_begin_throws_no_body_no_end :
  forall (lib : Library) (BEGIN END : string) (ALWAYS : bool)
         (va_args : list Value) (body : M unit) (w : World) (e : string),
    lib BEGIN va_args w = Raise e ->
    _SUGAR_SCOPED_BOOL lib BEGIN END ALWAYS va_args body w
      = (Throw e, w ++ [mkCall BEGIN va_args])
    /\ IMGUI_SUGAR_SCOPED_BOOL lib BEGIN END ALWAYS va_args body w
      = (Throw e, w ++ [mkCall BEGIN va_args]).
Proof.
  intros lib BEGIN END ALWAYS va_args body w e He.
  rewrite <- scoped_bool_variants_agree.
  split; apply scoped_bool_begin_throws; exact He.
Qed.

Lemma bool_begin_throws_no_body_no_end_witness :
  DSL.with_Window failing_stub [VStr "window"] (text "never") []
  = (Throw "failed", [mkCall "Begin" [VStr "window"]]).
Proof.
  exact (proj1 (@bool_begin_throws_no_body_no_end
                  failing_stub "Begin" "End" true [VStr "window"]
                  (text "never") [] "failed" eq_refl)).
Defined.

(** ** Nests in which a begin function does not acquire *)

Lemma nest_app :
  forall lib outer inner body,
    nest lib (outer ++ inner) body = nest lib outer (nest lib inner body).
Proof. intros; unfold nest; apply fold_right_app. Qed.

Lemma nest11_app :
  forall lib outer inner body,
    nest11 lib (outer ++ inner) body = nest11 lib outer (nest11 lib inner body).
Proof. intros; unfold nest11; apply fold_right_app. Qed.

Lemma if_true_terminate :
  forall (d : declaration) (body : M unit) w (g : decl_type d) w1 w2,
    decl_init d w = (Normal g, w1) ->
    decl_bool d g = true ->
    body w1 = (Terminate, w2) ->
    if_ d body w = (Terminate, w2).
Proof.
  intros d body w g w1 w2 Hi Hc Hb; unfold if_, decl_in.
  erewrite bind_normal by exact Hi.
  apply scope_exit_terminate; rewrite Hc; exact Hb.
Qed.

Lemma expand_terminate :
  forall lib c body w w2,
    acquires lib c w = true ->
    body (w ++ [begin_call c]) = (Terminate, w2) ->
    expand lib c body w = (Terminate, w2)
    /\ expand11 lib c body w = (Terminate, w2).
Proof.
  intros lib c body w w2 Ha Hb.
  destruct (acquires_reply lib c w Ha) as [b [Hl Ht]].
  destruct c; simpl in *.
  - rewrite (Ht _ _ _ _ eq_refl) in Hl.
    rewrite <- scoped_bool_variants_agree.
    split; unfold _SUGAR_SCOPED_BOOL;
      (eapply if_true_terminate; simpl;
       [apply guard_bool_init; exact Hl | reflexivity | exact Hb]).
  - split; [unfold _SUGAR_SCOPED_VOID_N | unfold IMGUI_SUGAR_SCOPED_VOID_N];
      (eapply if_true_terminate; simpl;
       [first [eapply guard_void_init | eapply ES_guard_init]; exact Hl
       | reflexivity | exact Hb]).
  - split; [unfold DSL.with_StyleColor, DSL.set_StyleColor
           | unfold DSL11.with_StyleColor];
      (eapply if_true_terminate; simpl;
       [first [eapply guard_void_init | eapply ES_guard_init]; exact Hl
       | reflexivity | exact Hb]).
  - split; [unfold DSL.with_StyleVar, DSL.set_StyleVar
           | unfold DSL11.with_StyleVar];
      (eapply if_true_terminate; simpl;
       [first [eapply guard_void_init | eapply ES_guard_init]; exact Hl
       | reflexivity | exact Hb]).
Qed.

(** Termination inside a nest ends everything: no end function is called. *)
Lemma nest_terminate :
  forall lib cs body w w2,
    acquired lib cs w = true ->
    body (w ++ map begin_call cs) = (Terminate, w2) ->
    nest lib cs body w = (Terminate, w2)
    /\ nest11 lib cs body w = (Terminate, w2).
Proof.
  intros lib cs body; induction cs as [|c cs IH]; intros w w2 Ha Hb.
  - simpl in *; rewrite app_nil_r in Hb; split; exact Hb.
  - simpl in Ha; apply andb_true_iff in Ha; destruct Ha as [Hc Hcs].
    assert (Hb' : body ((w ++ [begin_call c]) ++ map begin_call cs)
                  = (Terminate, w2)).
    { rewrite <- app_assoc; exact Hb. }
    destruct (IH _ _ Hcs Hb') as [H1 H2]; simpl; split.
    + exact (proj1 (expand_terminate lib c _ w Hc H1)).
    + exact (proj2 (expand_terminate lib c _ w Hc H2)).
Qed.

(** X3. In a nest of self scoped constructs, let the constructs [outer] be
    acquired and let the next one, a boolean entry, return [false].  Then
    nothing inside it happens: no begin function of [inner] is called and
    the body does not run.  Its own end function is called only under the
    always release policy, and the end functions of [outer] are then called
    in reverse order.  Both variants. *)
Theorem nest_false_begin_skips_inner_releases_outer :
  forall (lib : Library) (outer inner : list self_scoped)
         (BEGIN END : string) (ALWAYS : bool) (va_args : list Value)
         (body : M unit) (w : World),
    acquired lib outer w = true ->
    lib BEGIN va_args (w ++ map begin_call outer) = Ok false ->
    nest lib (outer ++ ScopedBool BEGIN END ALWAYS va_args :: inner) body w
      = (Normal tt,
         (w ++ map begin_call outer ++ [mkCall BEGIN va_args]
            ++ (if ALWAYS then [mkCall END []] else []))
         ++ rev (map end_call outer))
    /\ nest11 lib (outer ++ ScopedBool BEGIN END ALWAYS va_args :: inner) body w
      = (Normal tt,
         (w ++ map begin_call outer ++ [mkCall BEGIN va_args]
            ++ (if ALWAYS then [mkCall END []] else []))
         ++ rev (map end_call outer)).
Proof.
  intros lib outer inner BEGIN END ALWAYS va_args body w Ha Hf.
  rewrite nest_app, nest11_app; split.
  - apply nest_releases_in_reverse; [exact Ha | | discriminate].
    simpl; rewrite (scoped_bool_begin_false _ _ _ _ _ _ _ Hf).
    rewrite <- !app_assoc; reflexivity.
  - apply nest11_releases_in_reverse; [exact Ha | | discriminate].
    simpl; rewrite <- scoped_bool_variants_agree.
    rewrite (scoped_bool_begin_false _ _ _ _ _ _ _ Hf).
    rewrite <- !app_assoc; reflexivity.
Qed.

Lemma nest_false_begin_skips_inner_releases_outer_witness :
  DSL.with_Window (stub_false_on "BeginPopup") [VStr "A"]
    (DSL.with_Popup (stub_false_on "BeginPopup") [VStr "B"]
       (DSL.with_Group (stub_false_on "BeginPopup") (text "never"))) []
  = (Normal tt,
     [mkCall "Begin" [VStr "A"]; mkCall "BeginPopup" [VStr "B"];
      mkCall "End" []]).
Proof.
  exact (proj1 (@nest_false_begin_skips_inner_releases_outer
                  (stub_false_on "BeginPopup")
                  [ScopedBool "Begin" "End" true [VStr "A"]]
                  [ScopedVoid "BeginGroup" "EndGroup" []]
                  "BeginPopup" "EndPopup" false [VStr "B"] (text "never") []
                  eq_refl eq_refl)).
Defined.

(** X4. In a nest of self scoped constructs, let the constructs [outer] be
    acquired and let the begin function of the next one, a boolean entry,
    throw.  Then the exception leaves the nest, nothing inside the failing
    construct happens, its end function is not called, and the end
    functions of [outer] are called in reverse order on the way out.  Both
    variants. *)
Theorem nest_bool_begin_throws_releases_outer :
  forall (lib : Library) (outer inner : list self_scoped)
         (BEGIN END : string) (ALWAYS : bool) (va_args : list Value)
         (body : M unit) (w : World) (e : string),
    acquired lib outer w = true ->
    lib BEGIN va_args (w ++ map begin_call outer) = Raise e ->
    nest lib (outer ++ ScopedBool BEGIN END ALWAYS va_args :: inner) body w
      = (Throw e,
         (w ++ map begin_call outer ++ [mkCall BEGIN va_args])
         ++ rev (map end_call outer))
    /\ nest11 lib (outer ++ ScopedBool BEGIN END ALWAYS va_args :: inner) body w
      = (Throw e,
         (w ++ map begin_call outer ++ [mkCall BEGIN va_args])
         ++ rev (map end_call outer)).
Proof.
  intros lib outer inner BEGIN END ALWAYS va_args body w e Ha He.
  rewrite nest_app, nest11_app; split.
  - apply nest_releases_in_reverse; [exact Ha | | discriminate].
    simpl; rewrite (scoped_bool_begin_throws _ _ _ _ _ _ _ He).
    rewrite <- app_assoc; reflexivity.
  - apply nest11_releases_in_reverse; [exact Ha | | discriminate].
    simpl; rewrite <- scoped_bool_variants_agree.
    rewrite (scoped_bool_begin_throws _ _ _ _ _ _ _ He).
    rewrite <- app_assoc; reflexivity.
Qed.

Lemma nest_bool_begin_throws_releases_outer_witness :
  DSL.with_Window (stub_failing_on "BeginTable") [VStr "A"]
    (DSL.with_Group (stub_failing_on "BeginTable")
       (DSL.with_Table (stub_failing_on "BeginTable") [VStr "T"; VInt 2]
          (text "never"))) []
  = (Throw "failed",
     [mkCall "Begin" [VStr "A"]; mkCall "BeginGroup" [];
      mkCall "BeginTable" [VStr "T"; VInt 2];
      mkCall "EndGroup" []; mkCall "End" []]).
Proof.
  exact (proj1 (@nest_bool_begin_throws_releases_outer
                  (stub_failing_on "BeginTable")
                  [ScopedBool "Begin" "End" true [VStr "A"];
                   ScopedVoid "BeginGroup" "EndGroup" []]
                  []
                  "BeginTable" "EndTable" false [VStr "T"; VInt 2]
                  (text "never") [] "failed" eq_refl eq_refl)).
Defined.

(** X5. The same with a void entry as the construct whose begin function
    throws.  In [imgui_sugar.hpp] the begin function is called inside the
    [noexcept] constructor of [guard_void]: the program is terminated at
    the begin call and the end functions of [outer] are never called.  In
    the C++11 variant the begin function is called in the lambda, before
    any guard is constructed: the exception leaves the nest and the end
    functions of [outer] are called in reverse order. *)
Theorem nest_void_begin_throws_terminates_or_unwinds :
  forall (lib : Library) (outer inner : list self_scoped)
         (BEGIN END : string) (va_args : list Value)
         (body : M unit) (w : World) (e : string),
    acquired lib outer w = true ->
    lib BEGIN va_args (w ++ map begin_call outer) = Raise e ->
    nest lib (outer ++ ScopedVoid BEGIN END va_args :: inner) body w
      = (Terminate, w ++ map begin_call outer ++ [mkCall BEGIN va_args])
    /\ nest11 lib (outer ++ ScopedVoid BEGIN END va_args :: inner) body w
      = (Throw e,
         (w ++ map begin_call outer ++ [mkCall BEGIN va_args])
         ++ rev (map end_call outer)).
Proof.
  intros lib outer inner BEGIN END va_args body w e Ha He.
  rewrite nest_app, nest11_app; split.
  - refine (proj1 (nest_terminate lib outer _ w Ha _)).
    simpl.
    rewrite (proj1 (void_entries_when_begin_throws
                      lib BEGIN END va_args _ [] _ He)).
    rewrite <- app_assoc; reflexivity.
  - apply nest11_releases_in_reverse; [exact Ha | | discriminate].
    simpl.
    rewrite (proj1 (proj2 (void_entries_when_begin_throws
                             lib BEGIN END va_args _ [] _ He))).
    rewrite <- app_assoc; reflexivity.
Qed.

Lemma nest_void_begin_throws_terminates_or_unwinds_witness :
  DSL.with_Window (stub_failing_on "PushFont") [VStr "A"]
    (DSL.with_Font (stub_failing_on "PushFont") [VPtr 64] (text "never")) []
  = (Terminate, [mkCall "Begin" [VStr "A"]; mkCall "PushFont" [VPtr 64]])
  /\ DSL11.with_Window (stub_failing_on "PushFont") [VStr "A"]
    (DSL11.with_Font (stub_failing_on "PushFont") [VPtr 64] (text "never")) []
  = (Throw "failed",
     [mkCall "Begin" [VStr "A"]; mkCall "PushFont" [VPtr 64]; mkCall "End" []]).
Proof.
  exact (@nest_void_begin_throws_terminates_or_unwinds
           (stub_failing_on "PushFont")
           [ScopedBool "Begin" "End" true [VStr "A"]] []
           "PushFont" "PopFont" [VPtr 64]
           (text "never") [] "failed" eq_refl eq_refl).
Defined.

(** ** Several parent scoped constructs in one block *)

Lemma run_block_declare :
  forall lib p rest w r w2,
    pushes lib p w = true ->
    run_block rest (w ++ [parent_begin p]) = (r, w2) ->
    r <> Terminate ->
    run_block (Decl (declare lib p) :: rest) w = (r, w2 ++ [parent_end p])
    /\ run_block (Decl (declare11 lib p) :: rest) w = (r, w2 ++ [parent_end p]).
Proof.
  intros lib p rest w r w2 Hp Hrest Hr.
  unfold pushes, returns in Hp.
  destruct (lib (fn (parent_begin p)) (args (parent_begin p)) w) as [b|] eqn:Hl;
    [clear Hp | discriminate].
  destruct p as [BEGIN END va_args | k ITEM va_args]; simpl in Hl, Hrest.
  - split; (eapply run_block_decl; simpl;
            [first [eapply guard_void_init | eapply ES_guard_init]; exact Hl
            | exact Hrest | exact Hr | reflexivity]).
  - destruct k; simpl in Hl, Hrest;
      (split; (eapply run_block_decl; simpl;
               [first [eapply guard_void_init | eapply ES_guard_init]; exact Hl
               | exact Hrest | exact Hr | reflexivity])).
Qed.

(** C6. A parent scoped construct, one of the void entries or one of the
    two style entries, is a declaration among the items of the block it is
    written in: it opens no block of its own.  When control reaches it (the
    statements [pre] before it have completed) the begin function is
    called; the items [post] that follow it in the block then all run, with
    whatever they declare released; only then, at the close of the block,
    is the end function called, whichever way [post] completed.  Both
    variants of the header. *)
Theorem parent_scoped_end_at_close_of_enclosing_block :
  forall (lib : Library) (p : parent_scoped)
         (pre : list (M unit)) (post : list item)
         (w w1 : World) (r : outcome unit) (w2 : World),
    run_block (map Stmt pre) w = (Normal tt, w1) ->
    pushes lib p w1 = true ->
    run_block post (w1 ++ [parent_begin p]) = (r, w2) ->
    r <> Terminate ->
    run_block (map Stmt pre ++ Decl (declare lib p) :: post) w
      = (r, w2 ++ [parent_end p])
    /\ run_block (map Stmt pre ++ Decl (declare11 lib p) :: post) w
      = (r, w2 ++ [parent_end p]).
Proof.
  intros lib p pre post w w1 r w2 Hpre Hp Hpost Hr.
  split; erewrite run_block_after_stmts by exact Hpre.
  - exact (proj1 (run_block_declare lib p post w1 Hp Hpost Hr)).
  - exact (proj2 (run_block_declare lib p post w1 Hp Hpost Hr)).
Qed.

Lemma parent_scoped_end_at_close_of_enclosing_block_witness :
  run_block [Stmt (text "before");
             Decl (DSL.set_StyleColor (stub true) (VInt 0) [VU32 4278190080]);
             Stmt (text "first");
             Stmt (text "second" ;; throw_ "boom")] []
  = (Throw "boom",
     [mkCall "Text" [VStr "before"];
      mkCall "PushStyleColor" [VInt 0; VU32 4278190080];
      mkCall "Text" [VStr "first"]; mkCall "Text" [VStr "second"];
      mkCall "PopStyleColor" [VInt 1]]).
Proof.
  refine (proj1 (@parent_scoped_end_at_close_of_enclosing_block
                   (stub true) (ParentStyle StyleColor (VInt 0) [VU32 4278190080])
                   [text "before"]
                   [Stmt (text "first"); Stmt (text "second" ;; throw_ "boom")]
                   [] [mkCall "Text" [VStr "before"]] (Throw "boom") _
                   eq_refl eq_refl eq_refl _)).
  discriminate.
Defined.

(** The same on a void entry of the table. *)
Example set_ID_end_at_close_of_enclosing_block :
  run_block [Stmt (text "before");
             Decl (DSL.set_ID (stub true) [VInt 1]);
             Stmt (text "first");
             Stmt (text "second")] []
  = (Normal tt,
     [mkCall "Text" [VStr "before"]; mkCall "PushID" [VInt 1];
      mkCall "Text" [VStr "first"]; mkCall "Text" [VStr "second"];
      mkCall "PopID" []])
  /\ declare (stub true) (ParentVoid "PushID" "PopID" [VInt 1])
     = DSL.set_ID (stub true) [VInt 1]
  /\ declare11 (stub true) (ParentVoid "PushID" "PopID" [VInt 1])
     = DSL11.set_ID (stub true) [VInt 1]
  /\ declare (stub true) (ParentStyle StyleVar (VInt 1) [VVec2 4 4])
     = DSL.set_StyleVar (stub true) (VInt 1) [VVec2 4 4]
  /\ declare11 (stub true) (ParentStyle StyleVar (VInt 1) [VVec2 4 4])
     = DSL11.set_StyleVar (stub true) [VInt 1; VVec2 4 4].
Proof. repeat split. Qed.

(** X6. Parent scoped constructs written one after another in a block, each
    of whose push returns, are released at the close of the block in the
    reverse of the order in which they were written, after everything else
    in the block has run and whichever way that completed.  Both variants,
    void entries and style entries alike. *)
Theorem parent_scoped_guards_release_in_reverse :
  forall (lib : Library) (ps : list parent_scoped) (rest : list item)
         (w : World) (r : outcome unit) (w2 : World),
    all_pushed lib ps w = true ->
    run_block rest (w ++ map parent_begin ps) = (r, w2) ->
    r <> Terminate ->
    run_block (map (fun p => Decl (declare lib p)) ps ++ rest) w
      = (r, w2 ++ rev (map parent_end ps))
    /\ run_block (map (fun p => Decl (declare11 lib p)) ps ++ rest) w
      = (r, w2 ++ rev (map parent_end ps)).
Proof.
  intros lib ps rest; induction ps as [|p ps IH]; intros w r w2 Ha Hrest Hr.
  - simpl in *; rewrite !app_nil_r in *; split; exact Hrest.
  - simpl in Ha; apply andb_true_iff in Ha; destruct Ha as [Hp Hps].
    assert (Hrest' : run_block rest ((w ++ [parent_begin p]) ++ map parent_begin ps)
                     = (r, w2)).
    { rewrite <- app_assoc; exact Hrest. }
    destruct (IH _ _ _ Hps Hrest' Hr) as [H1 H2].
    simpl map; rewrite <- !app_comm_cons; simpl rev; rewrite app_assoc.
    split.
    + exact (proj1 (run_block_declare lib p _ w Hp H1 Hr)).
    + exact (proj2 (run_block_declare lib p _ w Hp H2 Hr)).
Qed.

Lemma parent_scoped_guards_release_in_reverse_witness :
  run_block [Decl (DSL.set_Font (stub true) [VPtr 64]);
             Decl (DSL.set_StyleColor (stub true) (VInt 0) [VU32 255]);
             Decl (DSL.set_ItemWidth (stub true) [VInt 120]);
             Stmt (text "label" ;; return_)] []
  = (Return_,
     [mkCall "PushFont" [VPtr 64];
      mkCall "PushStyleColor" [VInt 0; VU32 255];
      mkCall "PushItemWidth" [VInt 120];
      mkCall "Text" [VStr "label"];
      mkCall "PopItemWidth" [];
      mkCall "PopStyleColor" [VInt 1];
      mkCall "PopFont" []]).
Proof.
  refine (proj1 (@parent_scoped_guards_release_in_reverse
                   (stub true)
                   [ParentVoid "PushFont" "PopFont" [VPtr 64];
                    ParentStyle StyleColor (VInt 0) [VU32 255];
                    ParentVoid "PushItemWidth" "PopItemWidth" [VInt 120]]
                   [Stmt (text "label" ;; return_)] []
                   Return_ _ eq_refl eq_refl _)).
  discriminate.
Defined.

(** ** The style stacks across whole nests and blocks *)

Lemma stack_of_last :
  forall k w c,
    stack_of k (w ++ [c])
    = ImGui.style_step (push_fn k) (pop_fn k) (stack_of k w) c.
Proof. intros k w c; destruct k; apply style_stack_last. Qed.

Lemma style_pair_cancels :
  forall k b e st,
    style_pair k b e = true ->
    ImGui.style_step (push_fn k) (pop_fn k)
      (ImGui.style_step (push_fn k) (pop_fn k) st b) e = st.
Proof.
  intros k b e st H; unfold style_pair, touches in H.
  apply orb_true_iff in H; destruct H as [H | H].
  - apply andb_true_iff in H; destruct H as [H Hn].
    apply andb_true_iff in H; destruct H as [Hb He].
    apply Nat.eqb_eq in Hn; apply String.eqb_eq in He.
    unfold ImGui.style_step; rewrite Hb, He, Hn.
    destruct k; reflexivity.
  - apply andb_true_iff in H; destruct H as [Hb He].
    apply negb_true_iff in Hb; apply negb_true_iff in He.
    apply orb_false_iff in Hb; apply orb_false_iff in He.
    destruct Hb as [Hb1 Hb2]; destruct He as [He1 He2].
    unfold ImGui.style_step; rewrite Hb1, Hb2, He1, He2; reflexivity.
Qed.

(** Begin calls, anything that leaves the stack as it found it, and the
    matching end calls in reverse: the stack is back where it was. *)
Lemma style_stack_bracketed :
  forall k (A : Type) (f g : A -> Call) (l : list A) w w2,
    forallb (fun a => style_pair k (f a) (g a)) l = true ->
    stack_of k w2 = stack_of k (w ++ map f l) ->
    stack_of k (w2 ++ rev (map g l)) = stack_of k w.
Proof.
  intros k A f g l; induction l as [|a l IH]; intros w w2 Hs Heq.
  - simpl in *; rewrite !app_nil_r in *; exact Heq.
  - simpl in Hs; apply andb_true_iff in Hs; destruct Hs as [Ha Hl].
    simpl; rewrite app_assoc, stack_of_last.
    rewrite (IH (w ++ [f a]) w2 Hl).
    + rewrite stack_of_last; apply style_pair_cancels; exact Ha.
    + rewrite <- app_assoc; exact Heq.
Qed.

(** X7. A nest of acquired self scoped constructs leaves a style stack of
    the library as it found it, provided the body does: each style entry of
    the nest pushes one entry and its release pops that one entry, and the
    other entries call functions the stack does not react to.  This holds
    for the colour stack and for the variable stack, for every completion
    of the body short of termination, in both variants. *)
Theorem nest_restores_style_stack :
  forall (lib : Library) (k : style) (cs : list self_scoped) (body : M unit)
         (w : World) (r : outcome unit) (w2 : World),
    forallb (style_safe k) cs = true ->
    acquired lib cs w = true ->
    body (w ++ map begin_call cs) = (r, w2) ->
    r <> Terminate ->
    stack_of k w2 = stack_of k (w ++ map begin_call cs) ->
    stack_of k (snd (nest lib cs body w)) = stack_of k w
    /\ stack_of k (snd (nest11 lib cs body w)) = stack_of k w.
Proof.
  intros lib k cs body w r w2 Hs Ha Hb Hr Heq.
  rewrite (nest_releases_in_reverse lib cs body w Ha Hb Hr).
  rewrite (nest11_releases_in_reverse lib cs body w Ha Hb Hr).
  simpl snd; split;
    apply (style_stack_bracketed k begin_call end_call cs w w2 Hs Heq).
Qed.

Lemma nest_restores_style_stack_witness :
  stack_of StyleColor
    (snd (DSL.with_StyleColor (stub true) (VInt 0) [VU32 255]
            (DSL.with_Window (stub true) [VStr "A"]
               (DSL.with_StyleColor (stub true) (VInt 5) [VVec4 0 1 0 1]
                  (text "green" ;; throw_ "boom")))
            [mkCall "PushStyleColor" [VInt 2; VU32 0]]))
  = [[VInt 2; VU32 0]].
Proof.
  refine (proj1 (@nest_restores_style_stack
                   (stub true) StyleColor
                   [ScopedStyleColor (VInt 0) [VU32 255];
                    ScopedBool "Begin" "End" true [VStr "A"];
                    ScopedStyleColor (VInt 5) [VVec4 0 1 0 1]]
                   (text "green" ;; throw_ "boom")
                   [mkCall "PushStyleColor" [VInt 2; VU32 0]]
                   (Throw "boom") _ eq_refl eq_refl eq_refl _ eq_refl)).
  discriminate.
Defined.

(** X8. The same for parent scoped constructs: a block that declares them
    one after another and then runs statements that leave the style stack
    as they found it has, at its close, the style stack it started with. *)
Theorem block_restores_style_stack :
  forall (lib : Library) (k : style) (ps : list parent_scoped)
         (rest : list item) (w : World) (r : outcome unit) (w2 : World),
    forallb (parent_style_safe k) ps = true ->
    all_pushed lib ps w = true ->
    run_block rest (w ++ map parent_begin ps) = (r, w2) ->
    r <> Terminate ->
    stack_of k w2 = stack_of k (w ++ map parent_begin ps) ->
    stack_of k (snd (run_block (map (fun p => Decl (declare lib p)) ps ++ rest) w))
      = stack_of k w
    /\ stack_of k
         (snd (run_block (map (fun p => Decl (declare11 lib p)) ps ++ rest) w))
      = stack_of k w.
Proof.
  intros lib k ps rest w r w2 Hs Ha Hrest Hr Heq.
  destruct (parent_scoped_guards_release_in_reverse lib ps rest w Ha Hrest Hr)
    as [H1 H2].
  rewrite H1, H2; simpl snd; split;
    apply (style_stack_bracketed k parent_begin parent_end ps w w2 Hs Heq).
Qed.

Lemma block_restores_style_stack_witness :
  stack_of StyleVar
    (snd (run_block
            [Decl (DSL.set_StyleVar (stub true) (VInt 1) [VFloat 1 (-1)]);
             Decl (DSL.set_StyleColor (stub true) (VInt 0) [VU32 255]);
             Decl (DSL.set_StyleVar (stub true) (VInt 3) [VVec2 4 4]);
             Stmt (text "label")] []))
  = [].
Proof.
  refine (proj1 (@block_restores_style_stack
                   (stub true) StyleVar
                   [ParentStyle StyleVar (VInt 1) [VFloat 1 (-1)];
                    ParentStyle StyleColor (VInt 0) [VU32 255];
                    ParentStyle StyleVar (VInt 3) [VVec2 4 4]]
                   [Stmt (text "label")] []
                   (Normal tt) _ eq_refl eq_refl eq_refl _ eq_refl)).
  discriminate.
Defined.

(** ** Self scoped and parent scoped forms of one entry *)

Lemma if_is_block_of_its_own :
  forall (d : declaration) (body : M unit) w,
    (forall g w1, decl_init d w = (Normal g, w1) -> decl_bool d g = true) ->
    if_ d body w = run_block [Decl d; Stmt body] w.
Proof.
  intros d body w H; unfold if_; simpl run_block; unfold decl_in, bind.
  destruct (decl_init d w) as [[g | e | | | |] w1] eqn:Hi; try reflexivity.
  rewrite (H g w1 eq_refl).
  unfold scope_exit, ret.
  destruct (body w1) as [[[] | e | | | |] w2]; reflexivity.
Qed.

Lemma ES_guard_state_true :
  forall lib BEGIN (end_ : M unit) va_args w g w1,
    (state <- IMGUI_SUGAR_ES (ImGui.call_void lib BEGIN) va_args ;;
     ImGuiSugar.BooleanGuard.ctor true state end_) w = (Normal g, w1) ->
    ImGuiSugar.BooleanGuard.operator_bool g = true.
Proof.
  intros lib BEGIN end_ va_args w g w1.
  unfold IMGUI_SUGAR_ES, ImGuiSugar.BooleanGuard.ctor, noexcept_, bind, ret,
         ImGui.call_void.
  destruct (lib BEGIN va_args w); intros H; inversion H; reflexivity.
Qed.

(** X9. A self scoped void entry is the parent scoped entry in a block of
    its own: [with_X(args) body] and [{ set_X(args); body }] complete the
    same way and leave the same log, for every library, argument list, body
    and starting log, the failing cases included.  This holds for the void
    entries and for the two style entries, in both variants. *)
Theorem self_scoped_void_is_parent_scoped_in_own_block :
  forall (lib : Library) (BEGIN END : string) (k : style) (ITEM : Value)
         (va_args : list Value) (body : M unit) (w : World),
    _SUGAR_SCOPED_VOID_N lib BEGIN END va_args body w
      = run_block [Decl (_SUGAR_PARENT_SCOPED_VOID_N lib BEGIN END va_args);
                   Stmt body] w
    /\ IMGUI_SUGAR_SCOPED_VOID_N lib BEGIN END va_args body w
      = run_block [Decl (IMGUI_SUGAR_PARENT_SCOPED_VOID_N lib BEGIN END va_args);
                   Stmt body] w
    /\ with_Style lib k ITEM va_args body w
      = run_block [Decl (set_Style lib k ITEM va_args); Stmt body] w
    /\ with_Style11 lib k (ITEM :: va_args) body w
      = run_block [Decl (set_Style11 lib k (ITEM :: va_args)); Stmt body] w.
Proof.
  intros lib BEGIN END k ITEM va_args body w.
  split; [|split; [|split]].
  - apply (if_is_block_of_its_own
             (_SUGAR_PARENT_SCOPED_VOID_N lib BEGIN END va_args)).
    intros; reflexivity.
  - apply (if_is_block_of_its_own
             (IMGUI_SUGAR_PARENT_SCOPED_VOID_N lib BEGIN END va_args)).
    simpl; intros g w1 H; eapply ES_guard_state_true; exact H.
  - destruct k;
      [apply (if_is_block_of_its_own (DSL.set_StyleColor lib ITEM va_args))
      |apply (if_is_block_of_its_own (DSL.set_StyleVar lib ITEM va_args))];
      intros; reflexivity.
  - destruct k;
      [apply (if_is_block_of_its_own (DSL11.set_StyleColor lib (ITEM :: va_args)))
      |apply (if_is_block_of_its_own (DSL11.set_StyleVar lib (ITEM :: va_args)))];
      simpl; intros g w1 H; eapply ES_guard_state_true; exact H.
Qed.

(* ------------------------------------------------------------------------ *)
(** ** More on the overloaded push functions                                 *)
(* ------------------------------------------------------------------------ *)

Lemma is_integral_remove_cv :
  forall T, is_integral (remove_cv T) = is_integral T.
Proof.
  intros T; unfold is_integral.
  induction T; simpl; try reflexivity; assumption.
Qed.

Lemma is_arithmetic_remove_cv :
  forall T, is_arithmetic (remove_cv T) = is_arithmetic T.
Proof.
  intros T; unfold is_arithmetic, is_integral, is_floating_point.
  induction T; simpl; try reflexivity; assumption.
Qed.

(** X10. The guard that [set_StyleColor] or [set_StyleVar] declares can
    always be constructed from the address of the push function: whatever
    the type of the trailing argument, the parameter list the macro
    instantiates the guard with is the parameter list of one of the two
    overloads that the library declares, so the address of the overloaded
    function resolves, and resolves to exactly that one. *)
Theorem style_guard_always_matches_a_declared_overload :
  forall (T : CType) (v : Value),
    (set_StyleColor_begin (mkExpr T v) = Some PushStyleColor_ImU32
     \/ set_StyleColor_begin (mkExpr T v) = Some PushStyleColor_ImVec4)
    /\ (set_StyleVar_begin (mkExpr T v) = Some PushStyleVar_float
     \/ set_StyleVar_begin (mkExpr T v) = Some PushStyleVar_ImVec2)
    /\ set_StyleColor_begin (mkExpr T v) = Some (set_StyleColor_Args (mkExpr T v))
    /\ set_StyleVar_begin (mkExpr T v) = Some (set_StyleVar_Args (mkExpr T v))
    /\ In (set_StyleColor_Args (mkExpr T v)) PushStyleColor
    /\ In (set_StyleVar_Args (mkExpr T v)) PushStyleVar.
Proof.
  intros T v.
  unfold set_StyleColor_begin, set_StyleVar_begin,
         set_StyleColor_Args, set_StyleVar_Args; simpl decltype.
  destruct (is_integral T); destruct (is_arithmetic T); vm_compute; tauto.
Qed.

(** X11. What the qualifiers of the argument's type do to the selection.
    [const] and [volatile] change nothing: the qualified type selects what
    the unqualified type selects, for both macros.  A reference type, to
    whatever it refers, is neither integral nor arithmetic: it selects the
    [const ImVec4&] overload in [set_StyleColor] and the [const ImVec2&]
    overload in [set_StyleVar], also when it refers to an integer or to a
    [float]. *)
Theorem style_overload_under_qualifiers_and_references :
  forall (T : CType) (v : Value),
    set_StyleColor_begin (mkExpr (TConst T) v) = set_StyleColor_begin (mkExpr T v)
    /\ set_StyleColor_begin (mkExpr (TVolatile T) v)
       = set_StyleColor_begin (mkExpr T v)
    /\ set_StyleVar_begin (mkExpr (TConst T) v) = set_StyleVar_begin (mkExpr T v)
    /\ set_StyleVar_begin (mkExpr (TVolatile T) v)
       = set_StyleVar_begin (mkExpr T v)
    /\ set_StyleColor_begin (mkExpr (remove_cv T) v)
       = set_StyleColor_begin (mkExpr T v)
    /\ set_StyleVar_begin (mkExpr (remove_cv T) v)
       = set_StyleVar_begin (mkExpr T v)
    /\ set_StyleColor_begin (mkExpr (TLRef T) v) = Some PushStyleColor_ImVec4
    /\ set_StyleColor_begin (mkExpr (TRRef T) v) = Some PushStyleColor_ImVec4
    /\ set_StyleVar_begin (mkExpr (TLRef T) v) = Some PushStyleVar_ImVec2
    /\ set_StyleVar_begin (mkExpr (TRRef T) v) = Some PushStyleVar_ImVec2.
Proof.
  intros T v.
  unfold set_StyleColor_begin, set_StyleVar_begin,
         set_StyleColor_Args, set_StyleVar_Args; simpl decltype.
  rewrite is_integral_remove_cv, is_arithmetic_remove_cv.
  repeat split.
Qed.

(** X12. Every argument type that [set_StyleColor] takes for a packed
    colour, [set_StyleVar] takes for a scalar: a type that selects the
    [ImU32] overload of the one selects the [float] overload of the other. *)
Theorem integral_argument_is_scalar_style_var :
  forall (T : CType) (v : Value),
    set_StyleColor_begin (mkExpr T v) = Some PushStyleColor_ImU32 ->
    set_StyleVar_begin (mkExpr T v) = Some PushStyleVar_float.
Proof.
  intros T v.
  unfold set_StyleColor_begin, set_StyleVar_begin,
         set_StyleColor_Args, set_StyleVar_Args, is_arithmetic; simpl decltype.
  destruct (is_integral T) eqn:Hi.
  - intros _; reflexivity.
  - vm_compute; discriminate.
Qed.

Lemma integral_argument_is_scalar_style_var_witness :
  set_StyleVar_begin (mkExpr (TConst TUShort) (VInt 3)) = Some PushStyleVar_float.
Proof.
  exact (@integral_argument_is_scalar_style_var
           (TConst TUShort) (VInt 3) eq_refl).
Defined.

(** The converse fails for the floating point types. *)
Example scalar_style_var_not_integral :
  set_StyleVar_begin (mkExpr TDouble (VFloat 3 0)) = Some PushStyleVar_float
  /\ set_StyleColor_begin (mkExpr TDouble (VFloat 3 0))
     = Some PushStyleColor_ImVec4.
Proof. split; reflexivity. Qed.

(* ------------------------------------------------------------------------ *)
(** ** The entries without a guard, and the balance of the guarded ones      *)
(* ------------------------------------------------------------------------ *)

(** X13. The entries marked non RAII, [with_CollapsingHeader] in both
    variants and [with_MenuItem] in the C++11 variant, release nothing: the
    log they leave is the call of the function followed by the calls of the
    body if the function returned [true], and by nothing otherwise, with no
    call added after the body on any completion; and they complete the way
    the body does, or normally when the body does not run, or by the
    exception of the function. *)
Theorem non_raii_entries_release_nothing :
  forall (lib : Library) (va_args : list Value) (body : M unit) (w : World),
    let header (f : string) : outcome unit * World :=
      match lib f va_args w with
      | Ok true => body (w ++ [mkCall f va_args])
      | Ok false => (Normal tt, w ++ [mkCall f va_args])
      | Raise e => (Throw e, w ++ [mkCall f va_args])
      end in
    DSL.with_CollapsingHeader lib va_args body w = header "CollapsingHeader"
    /\ DSL11.with_CollapsingHeader lib va_args body w = header "CollapsingHeader"
    /\ DSL11.with_MenuItem lib va_args body w = header "MenuItem"
    /\ snd (DSL.with_CollapsingHeader lib va_args body w)
       = log_before_release
           (returns_true (lib "CollapsingHeader" va_args w)) body
           (w ++ [mkCall "CollapsingHeader" va_args]).
Proof.
  intros lib va_args body w header; unfold header.
  unfold DSL.with_CollapsingHeader, DSL11.with_CollapsingHeader,
         DSL11.with_MenuItem, log_before_release, returns_true,
         bind, ret, ImGui.call_bool.
  destruct (lib "CollapsingHeader" va_args w) as [[|] | e];
    destruct (lib "MenuItem" va_args w) as [[|] | e'];
    repeat split.
Qed.

(** X14. An always release entry keeps begin and end calls paired whatever
    the begin function returns: if the body, when it runs, adds as many
    calls of END as of BEGIN, then so does the whole construct, whether the
    begin function returned [true] or [false] and whichever way the body
    completed.  Both variants; BEGIN and END are different functions. *)
Theorem always_release_keeps_begin_end_paired :
  forall (lib : Library) (BEGIN END : string) (va_args : list Value)
         (body : M unit) (w : World) (b : bool) (r : outcome unit) (w2 : World),
    BEGIN <> END ->
    lib BEGIN va_args w = Ok b ->
    body (w ++ [mkCall BEGIN va_args]) = (r, w2) ->
    r <> Terminate ->
    count_calls END w2 + count_calls BEGIN (w ++ [mkCall BEGIN va_args])
      = count_calls BEGIN w2 + count_calls END (w ++ [mkCall BEGIN va_args]) ->
    count_calls END (snd (_SUGAR_SCOPED_BOOL lib BEGIN END true va_args body w))
      + count_calls BEGIN w
      = count_calls BEGIN (snd (_SUGAR_SCOPED_BOOL lib BEGIN END true va_args body w))
        + count_calls END w
    /\ count_calls END
         (snd (IMGUI_SUGAR_SCOPED_BOOL lib BEGIN END true va_args body w))
      + count_calls BEGIN w
      = count_calls BEGIN
          (snd (IMGUI_SUGAR_SCOPED_BOOL lib BEGIN END true va_args body w))
        + count_calls END w.
Proof.
  intros lib BEGIN END va_args body w b r w2 Hne Hl Hbody Hr Hbal.
  rewrite <- scoped_bool_variants_agree.
  assert (Hbe : String.eqb BEGIN END = false) by (apply String.eqb_neq; exact Hne).
  assert (Heb : String.eqb END BEGIN = false)
    by (apply String.eqb_neq; congruence).
  assert (H : count_calls END
                (snd (_SUGAR_SCOPED_BOOL lib BEGIN END true va_args body w))
              + count_calls BEGIN w
              = count_calls BEGIN
                  (snd (_SUGAR_SCOPED_BOOL lib BEGIN END true va_args body w))
                + count_calls END w).
  { rewrite !count_calls_app in Hbal; simpl in Hbal.
    rewrite String.eqb_refl, Hbe in Hbal.
    destruct b.
    - unfold _SUGAR_SCOPED_BOOL.
      erewrite if_true_run;
        [ | apply guard_bool_init; exact Hl | reflexivity | exact Hbody
        | exact Hr | reflexivity ].
      simpl snd; rewrite !count_calls_app; simpl.
      rewrite String.eqb_refl, Heb; lia.
    - rewrite (scoped_bool_begin_false _ _ _ _ _ _ _ Hl); simpl snd.
      rewrite !count_calls_app; simpl.
      rewrite !String.eqb_refl, Hbe, Heb; lia. }
  split; exact H.
Qed.

Lemma always_release_keeps_begin_end_paired_witness :
  count_calls "End"
    (snd (DSL.with_Window (stub false) [VStr "A"] (text "never")
            [mkCall "Begin" [VStr "earlier"]]))
  + 1
  = count_calls "Begin"
      (snd (DSL.with_Window (stub false) [VStr "A"] (text "never")
              [mkCall "Begin" [VStr "earlier"]]))
    + 0.
Proof.
  refine (proj1 (@always_release_keeps_begin_end_paired
                   (stub false) "Begin" "End" [VStr "A"] (text "never")
                   [mkCall "Begin" [VStr "earlier"]] false (Normal tt) _
                   _ eq_refl eq_refl _ eq_refl)); discriminate.
Defined.

(* ------------------------------------------------------------------------ *)
(** ** The names of the guards                                               *)
(* ------------------------------------------------------------------------ *)

Lemma decimal_of_line_injective :
  forall m n,
    NilEmpty.string_of_uint (Nat.to_uint m) = NilEmpty.string_of_uint (Nat.to_uint n) ->
    m = n.
Proof.
  intros m n H.
  assert (Hu : Some (Nat.to_uint m) = Some (Nat.to_uint n)).
  { rewrite <- (NilEmpty.usu (Nat.to_uint m)), <- (NilEmpty.usu (Nat.to_uint n)).
    rewrite H; reflexivity. }
  inversion Hu as [Hd].
  rewrite <- (Unsigned.of_to m), <- (Unsigned.of_to n), Hd; reflexivity.
Qed.

(** X15. The guard variables of two parent scoped constructs have the same
    name exactly when the constructs are on the same source line, so that
    constructs on different lines of one block never collide and two on one
    line always do.  The second level of macro is what achieves this:
    pasting with [_SUGAR_CONCAT0] directly gives the one name
    [_ui_scope___LINE__] on every line. *)
Theorem parent_guard_names_distinct_per_line :
  forall (line1 line2 : nat),
    (parent_guard_name line1 = parent_guard_name line2 <-> line1 = line2)
    /\ _SUGAR_CONCAT0 (Identifier "_ui_scope_") LINE
       = Identifier "_ui_scope___LINE__"
    /\ parent_guard_name line1 <> _SUGAR_CONCAT0 (Identifier "_ui_scope_") LINE.
Proof.
  intros line1 line2; split; [split|split].
  - unfold parent_guard_name, _SUGAR_CONCAT1, _SUGAR_CONCAT0; simpl.
    intros H; inversion H as [Hs].
    apply decimal_of_line_injective; exact Hs.
  - intros ->; reflexivity.
  - reflexivity.
  - unfold parent_guard_name, _SUGAR_CONCAT1, _SUGAR_CONCAT0; simpl.
    intros H; inversion H as [Hs].
    assert (Hu : NilEmpty.uint_of_string "__LINE__"
                 = Some (Nat.to_uint line1)).
    { rewrite <- Hs; apply NilEmpty.usu. }
    vm_compute in Hu; discriminate.
Qed.

Example parent_guard_name_on_line_103 :
  parent_guard_name 103 = Identifier "_ui_scope_103".
Proof. reflexivity. Qed.

(* ------------------------------------------------------------------------ *)
(** ** Nests of any depth                                                    *)
(* ------------------------------------------------------------------------ *)

(** X16. Self scoped constructs nested to any depth, each acquired in turn:
    the begin functions are called in the order of nesting, the body runs
    from the log they leave, and after the body the end functions are
    called in exactly the reverse order, the whole completing the way the
    body did; for every completion of the body short of termination and in
    both variants. *)
Theorem nest_of_any_depth_releases_in_reverse :
  forall (lib : Library) (cs : list self_scoped) (body : M unit)
         (w : World) (r : outcome unit) (w2 : World),
    acquired lib cs w = true ->
    body (w ++ map begin_call cs) = (r, w2) ->
    r <> Terminate ->
    nest lib cs body w = (r, w2 ++ rev (map end_call cs))
    /\ nest11 lib cs body w = (r, w2 ++ rev (map end_call cs)).
Proof.
  intros lib cs body w r w2 Ha Hb Hr; split.
  - apply nest_releases_in_reverse; assumption.
  - apply nest11_releases_in_reverse; assumption.
Qed.

Lemma nest_of_any_depth_releases_in_reverse_witness :
  DSL.with_Window (stub true) [VStr "A"]
    (DSL.with_Child (stub true) [VStr "B"]
       (DSL.with_Font (stub true) [VPtr 64]
          (DSL.with_StyleVar (stub true) (VInt 1) [VFloat 1 0]
             (DSL.with_TabBar (stub true) [VStr "E"]
                (text "leaf" ;; break_))))) []
  = (Break_,
     [mkCall "Begin" [VStr "A"]; mkCall "BeginChild" [VStr "B"];
      mkCall "PushFont" [VPtr 64];
      mkCall "PushStyleVar" [VInt 1; VFloat 1 0];
      mkCall "BeginTabBar" [VStr "E"];
      mkCall "Text" [VStr "leaf"];
      mkCall "EndTabBar" []; mkCall "PopStyleVar" [VInt 1];
      mkCall "PopFont" []; mkCall "EndChild" []; mkCall "End" []]).
Proof.
  refine (proj1 (@nest_of_any_depth_releases_in_reverse
                   (stub true)
                   [ScopedBool "Begin" "End" true [VStr "A"];
                    ScopedBool "BeginChild" "EndChild" true [VStr "B"];
                    ScopedVoid "PushFont" "PopFont" [VPtr 64];
                    ScopedStyleVar (VInt 1) [VFloat 1 0];
                    ScopedBool "BeginTabBar" "EndTabBar" false [VStr "E"]]
                   (text "leaf" ;; break_) []
                   Break_ _ eq_refl eq_refl _)).
  discriminate.
Defined.

(* ------------------------------------------------------------------------ *)
(** ** The two implementations of the void entries, compared                 *)
(* ------------------------------------------------------------------------ *)

Lemma expand_then_release :
  forall lib c body w,
    acquires lib c w = true ->
    expand lib c body w
      = then_release body (end_call c) (w ++ [begin_call c])
    /\ expand11 lib c body w
      = then_release body (end_call c) (w ++ [begin_call c]).
Proof.
  intros lib c body w Ha; unfold then_release.
  destruct (body (w ++ [begin_call c])) as [r w2] eqn:Hb.
  assert (Hd : r = Terminate \/ r <> Terminate).
  { destruct r; (left; reflexivity) || (right; discriminate). }
  destruct Hd as [-> | Hr].
  - exact (expand_terminate lib c body w Ha Hb).
  - rewrite (expand_run lib c body w Ha Hb Hr).
    rewrite (expand11_run lib c body w Ha Hb Hr).
    destruct r; try (split; reflexivity); congruence.
Qed.

Lemma declare_then_release :
  forall lib p rest w,
    pushes lib p w = true ->
    run_block (Decl (declare lib p) :: rest) w
      = then_release (run_block rest) (parent_end p) (w ++ [parent_begin p])
    /\ run_block (Decl (declare11 lib p) :: rest) w
      = then_release (run_block rest) (parent_end p) (w ++ [parent_begin p]).
Proof.
  intros lib p rest w Hp.
  unfold pushes, returns in Hp.
  destruct (lib (fn (parent_begin p)) (args (parent_begin p)) w) as [b|] eqn:Hl;
    [clear Hp | discriminate].
  destruct p as [BEGIN END va_args | k ITEM va_args]; simpl in Hl.
  - exact (proj2 (proj2 (void_entries_when_begin_returns
                           lib BEGIN END va_args (ret tt) rest w Hl))).
  - destruct k; simpl in Hl; simpl run_block; unfold decl_in; simpl decl_init;
      (split;
       [erewrite bind_normal by (eapply guard_void_init; exact Hl)
       |erewrite bind_normal by (eapply ES_guard_init; exact Hl)];
       apply scope_exit_call_end).
Qed.

(** C9, counterexample.  With a begin function that throws, the two
    implementations of a void entry are not the same statement:
    [imgui_sugar.hpp] ends the program where the C++11 variant lets the
    exception propagate.  Inside an acquired [with_Window] the logs differ
    as well: the C++11 variant calls [End] on the way out, [imgui_sugar.hpp]
    does not. *)
Lemma void_entry_implementations_differ_when_begin_throws :
  _SUGAR_SCOPED_VOID_N failing_stub "PushFont" "PopFont" [VPtr 64]
                       (text "bold") []
    <> IMGUI_SUGAR_SCOPED_VOID_N failing_stub "PushFont" "PopFont" [VPtr 64]
                                 (text "bold") []
  /\ snd (DSL.with_Window (stub_failing_on "PushFont") [VStr "A"]
            (DSL.with_Font (stub_failing_on "PushFont") [VPtr 64]
                           (text "bold")) [])
     <> snd (DSL11.with_Window (stub_failing_on "PushFont") [VStr "A"]
               (DSL11.with_Font (stub_failing_on "PushFont") [VPtr 64]
                                (text "bold")) [])
  /\ snd (DSL.with_Window (stub_failing_on "PushFont") [VStr "A"]
            (DSL.with_Font (stub_failing_on "PushFont") [VPtr 64]
                           (text "bold")) [])
     = [mkCall "Begin" [VStr "A"]; mkCall "PushFont" [VPtr 64]]
  /\ snd (DSL11.with_Window (stub_failing_on "PushFont") [VStr "A"]
            (DSL11.with_Font (stub_failing_on "PushFont") [VPtr 64]
                             (text "bold")) [])
     = [mkCall "Begin" [VStr "A"]; mkCall "PushFont" [VPtr 64];
        mkCall "End" []].
Proof.
  split; [|split; [|split]].
  - vm_compute; discriminate.
  - vm_compute; discriminate.
  - reflexivity.
  - reflexivity.
Qed.

(** C9, as amended.  For a begin function that returns, the void entries of
    [imgui_sugar.hpp] ([guard_void]) and of the C++11 variant (the lambda
    of [IMGUI_SUGAR_ES] as the state of a [BooleanGuard<true>]) are the same
    statement, in the self scoped and in the parent scoped form, for the
    generic void macros and for the style entries, whatever the argument
    list, the body and the starting log: they complete the same way and
    leave the same log, which is the begin call, then the body (it always
    runs), then one end call at scope exit unless the body ended the
    program.  The forms without arguments are the forms with an empty
    argument list. *)
Theorem void_entry_implementations_agree_when_begin_returns :
  forall (lib : Library) (c : self_scoped) (p : parent_scoped)
         (BEGIN END : string) (body : M unit) (rest : list item) (w : World),
    acquires lib c w = true ->
    pushes lib p w = true ->
    expand lib c body w = expand11 lib c body w
    /\ expand lib c body w
       = then_release body (end_call c) (w ++ [begin_call c])
    /\ run_block (Decl (declare lib p) :: rest) w
       = run_block (Decl (declare11 lib p) :: rest) w
    /\ run_block (Decl (declare lib p) :: rest) w
       = then_release (run_block rest) (parent_end p) (w ++ [parent_begin p])
    /\ _SUGAR_SCOPED_VOID_0 lib BEGIN END body
       = _SUGAR_SCOPED_VOID_N lib BEGIN END [] body
    /\ IMGUI_SUGAR_SCOPED_VOID_0 lib BEGIN END body
       = IMGUI_SUGAR_SCOPED_VOID_N lib BEGIN END [] body.
Proof.
  intros lib c p BEGIN END body rest w Ha Hp.
  destruct (expand_then_release lib c body w Ha) as [H1 H2].
  destruct (declare_then_release lib p rest w Hp) as [H3 H4].
  split; [rewrite H1, H2; reflexivity|].
  split; [exact H1|].
  split; [rewrite H3, H4; reflexivity|].
  split; [exact H3|].
  split; reflexivity.
Qed.

Lemma void_entry_implementations_agree_when_begin_returns_witness :
  _SUGAR_SCOPED_VOID_N (stub true) "PushFont" "PopFont" [VPtr 64]
                       (text "bold" ;; throw_ "boom") []
  = IMGUI_SUGAR_SCOPED_VOID_N (stub true) "PushFont" "PopFont" [VPtr 64]
                              (text "bold" ;; throw_ "boom") []
  /\ _SUGAR_SCOPED_VOID_N (stub true) "PushFont" "PopFont" [VPtr 64]
                          (text "bold" ;; throw_ "boom") []
  = (Throw "boom",
     [mkCall "PushFont" [VPtr 64]; mkCall "Text" [VStr "bold"];
      mkCall "PopFont" []]).
Proof.
  refine ((fun T => conj (proj1 T) (proj1 (proj2 T)))
            (@void_entry_implementations_agree_when_begin_returns
               (stub true)
               (ScopedVoid "PushFont" "PopFont" [VPtr 64])
               (ParentStyle StyleVar (VInt 1) [VVec2 4 4])
               "BeginGroup" "EndGroup"
               (text "bold" ;; throw_ "boom") [] [] eq_refl eq_refl)).
Defined.
